(** * Order book tracker: routing, reconciliation buffer and task lifecycle

    A shallow embedding of
    [hummingbot/core/data_type/order_book_tracker.py] (class
    [OrderBookTracker]) and the properties of its routers, per-pair
    workers, trade emitter, refresher, [ready] and [stop].

    Python objects that are shared by reference (tasks, order books,
    [asyncio.Queue]s, [deque]s) live in an object store indexed by
    references; the dictionaries of the tracker hold references.  A
    coroutine is embedded as the function that runs one pass of its
    [while True] loop, in a state-and-exception monad. *)

From stdpp Require Import gmap strings list fin_maps fin_sets.

(** ** The collaborators that are imported by the module *)

(** [OrderBookMessageType] of [order_book_message.py]. *)
Inductive OrderBookMessageType := SNAPSHOT | DIFF | TRADE.

(** [TradeType] of [hummingbot.core.event.events]. *)
Inductive TradeType := BUY | SELL.

Global Instance OrderBookMessageType_eq_dec : EqDecision OrderBookMessageType.
Proof. solve_decision. Defined.

Global Instance TradeType_eq_dec : EqDecision TradeType.
Proof. solve_decision. Defined.

(** How a call into a collaborator ends: it returns, or it raises an
    exception of class [Exception]. *)
Inductive completion := Returns | Throws (what : string).

(** The interface of the imported classes the tracker relies on.  Their
    code is outside this module, so the development is parametric in
    them:
    - [float] is Python's float, [minute_index t] is [int(t / 60.0)];
    - [pyobj] is the type of the values of [OrderBookMessage.content],
      [to_float x] is [float(x)] ([None] when it raises) and
      [equals_sell_value x] is [x == float(TradeType.SELL.value)];
    - [rows] is the type of [OrderBookMessage.bids] and [.asks];
    - [OrderBook] is the state of one [OrderBook] object, with the
      attribute [snapshot_uid] and the three methods the tracker calls;
      a method returns the state it leaves behind and how it ended. *)
Class Collaborators := {
  float : Type;
  minute_index : float → Z;
  pyobj : Type;
  to_float : pyobj → option float;
  equals_sell_value : pyobj → bool;
  rows : Type;
  OrderBook : Type;
  snapshot_uid : OrderBook → Z;
}.

(** A reference to an object of the store. *)
Abbreviation ref := nat (only parsing).

Section tracker.
Context `{Collaborators}.

(** [OrderBookMessage]: the attributes the tracker reads. *)
Record OrderBookMessage := {
  type : OrderBookMessageType;
  trading_pair : string;
  update_id : Z;
  timestamp : float;
  content : gmap string pyobj;
  bids : rows;
  asks : rows;
}.

(** [OrderBookTradeEvent], built by the trade emitter. *)
Record OrderBookTradeEvent := {
  ev_trading_pair : string;
  ev_timestamp : float;
  ev_price : float;
  ev_amount : float;
  ev_type : TradeType;
}.

(** [OrderBookTrackerEntry]: only [.order_book] is read. *)
Record OrderBookTrackerEntry := { order_book : OrderBook }.

(** The methods of [OrderBook] the tracker calls. *)
Class OrderBookMethods := {
  apply_diffs : OrderBook → rows → rows → Z → OrderBook * completion;
  restore_from_snapshot_and_diffs :
    OrderBook → OrderBookMessage → list OrderBookMessage → OrderBook * completion;
  apply_trade : OrderBook → OrderBookTradeEvent → OrderBook * completion;
}.
Context `{OrderBookMethods}.

(** ** Tasks and coroutines *)

(** The three states of an [asyncio.Task] that matter here: running or
    suspended, cancellation requested but not yet delivered, and done. *)
Inductive task_state := Pending | Cancelling | Finished.

Global Instance task_state_eq_dec : EqDecision task_state.
Proof. solve_decision. Defined.

(** Locals of [_order_book_diff_router] and [_emit_trade_event_loop]. *)
Record Counters := {
  last_message_timestamp : float;
  messages_accepted : Z;
  messages_rejected : Z;
}.

(** Locals of [_track_single_book]; the first three are references to
    the shared objects the coroutine captured before its loop. *)
Record WorkerLocals := {
  wk_trading_pair : string;
  wk_past_diffs_window : ref;
  wk_message_queue : ref;
  wk_order_book : ref;
  wk_last_message_timestamp : float;
  wk_diff_messages_accepted : Z;
}.

(** The coroutine a task runs, with its locals once it has started.
    [Foreign] is a coroutine defined by a subclass (the listeners). *)
Inductive coroutine :=
| TrackSingleBook (pair : string) (frame : option WorkerLocals)
| OrderBookDiffRouter (frame : option Counters)
| OrderBookSnapshotRouter
| EmitTradeEventLoop (frame : option Counters)
| RefreshTrackingLoop
| Foreign.

Record Task := { coro : coroutine; state : task_state }.

(** [Task.cancel()]: requests cancellation of a task that is not done,
    does nothing on a done one. *)
Definition cancel (t : Task) : Task :=
  match state t with
  | Pending => {| coro := coro t; state := Cancelling |}
  | Cancelling => t
  | Finished => t
  end.

(** [Task.done()]. *)
Definition done (t : Task) : bool := bool_decide (state t = Finished).

(** ** Observable effects other than state: logging and sleeping *)

Inductive arg := ArgInt (n : Z) | ArgStr (s : string).

Inductive effect :=
| LogInfo (fmt : string) (args : list arg)
| LogDebug (fmt : string) (args : list arg)
| LogError (fmt : string)
| LogNetwork (fmt : string)
| Sleep (seconds : Z).

(** ** The tracker and the object store *)

Record World := {
  (* the object store *)
  tasks : gmap ref Task;
  books : gmap ref OrderBook;
  queues : gmap ref (list OrderBookMessage);
  deques : gmap ref (list OrderBookMessage);
  effects : list effect;
  (* the attributes of [self] *)
  _tracking_tasks : gmap string ref;
  _order_books : gmap string ref;
  _tracking_message_queues : gmap string ref;
  _past_diffs_windows : gmap string ref;
  _order_book_diff_stream : list OrderBookMessage;
  _order_book_snapshot_stream : list OrderBookMessage;
  _order_book_trade_stream : list OrderBookMessage;
  _order_book_diff_listener_task : option ref;
  _order_book_trade_listener_task : option ref;
  _order_book_snapshot_listener_task : option ref;
  _order_book_diff_router_task : option ref;
  _order_book_snapshot_router_task : option ref;
  _emit_trade_event_task : option ref;
  _refresh_tracking_task : option ref;
  (* [self.data_source._trading_pairs] *)
  _trading_pairs : option (list string);
}.

Definition PAST_DIFF_WINDOW_SIZE : nat := 32.

(** Field updates. *)
Definition upd_tasks (f : gmap ref Task → gmap ref Task) (w : World) : World :=
  let 'Build_World a b c d e f1 f2 f3 f4 s1 s2 s3 t1 t2 t3 t4 t5 t6 t7 p := w in
  Build_World (f a) b c d e f1 f2 f3 f4 s1 s2 s3 t1 t2 t3 t4 t5 t6 t7 p.
Definition upd_books (f : gmap ref OrderBook → gmap ref OrderBook) (w : World) : World :=
  let 'Build_World a b c d e f1 f2 f3 f4 s1 s2 s3 t1 t2 t3 t4 t5 t6 t7 p := w in
  Build_World a (f b) c d e f1 f2 f3 f4 s1 s2 s3 t1 t2 t3 t4 t5 t6 t7 p.
Definition upd_queues (f : gmap ref (list OrderBookMessage) → gmap ref (list OrderBookMessage))
    (w : World) : World :=
  let 'Build_World a b c d e f1 f2 f3 f4 s1 s2 s3 t1 t2 t3 t4 t5 t6 t7 p := w in
  Build_World a b (f c) d e f1 f2 f3 f4 s1 s2 s3 t1 t2 t3 t4 t5 t6 t7 p.
Definition upd_deques (f : gmap ref (list OrderBookMessage) → gmap ref (list OrderBookMessage))
    (w : World) : World :=
  let 'Build_World a b c d e f1 f2 f3 f4 s1 s2 s3 t1 t2 t3 t4 t5 t6 t7 p := w in
  Build_World a b c (f d) e f1 f2 f3 f4 s1 s2 s3 t1 t2 t3 t4 t5 t6 t7 p.
Definition emit (x : effect) (w : World) : World :=
  let 'Build_World a b c d e f1 f2 f3 f4 s1 s2 s3 t1 t2 t3 t4 t5 t6 t7 p := w in
  Build_World a b c d (e ++ [x]) f1 f2 f3 f4 s1 s2 s3 t1 t2 t3 t4 t5 t6 t7 p.
Definition upd_tracking_tasks (f : gmap string ref → gmap string ref) (w : World) : World :=
  let 'Build_World a b c d e f1 f2 f3 f4 s1 s2 s3 t1 t2 t3 t4 t5 t6 t7 p := w in
  Build_World a b c d e (f f1) f2 f3 f4 s1 s2 s3 t1 t2 t3 t4 t5 t6 t7 p.
Definition upd_order_books (f : gmap string ref → gmap string ref) (w : World) : World :=
  let 'Build_World a b c d e f1 f2 f3 f4 s1 s2 s3 t1 t2 t3 t4 t5 t6 t7 p := w in
  Build_World a b c d e f1 (f f2) f3 f4 s1 s2 s3 t1 t2 t3 t4 t5 t6 t7 p.
Definition upd_tracking_message_queues (f : gmap string ref → gmap string ref) (w : World) : World :=
  let 'Build_World a b c d e f1 f2 f3 f4 s1 s2 s3 t1 t2 t3 t4 t5 t6 t7 p := w in
  Build_World a b c d e f1 f2 (f f3) f4 s1 s2 s3 t1 t2 t3 t4 t5 t6 t7 p.
Definition upd_past_diffs_windows (f : gmap string ref → gmap string ref) (w : World) : World :=
  let 'Build_World a b c d e f1 f2 f3 f4 s1 s2 s3 t1 t2 t3 t4 t5 t6 t7 p := w in
  Build_World a b c d e f1 f2 f3 (f f4) s1 s2 s3 t1 t2 t3 t4 t5 t6 t7 p.
Definition set_diff_stream (q : list OrderBookMessage) (w : World) : World :=
  let 'Build_World a b c d e f1 f2 f3 f4 s1 s2 s3 t1 t2 t3 t4 t5 t6 t7 p := w in
  Build_World a b c d e f1 f2 f3 f4 q s2 s3 t1 t2 t3 t4 t5 t6 t7 p.
Definition set_snapshot_stream (q : list OrderBookMessage) (w : World) : World :=
  let 'Build_World a b c d e f1 f2 f3 f4 s1 s2 s3 t1 t2 t3 t4 t5 t6 t7 p := w in
  Build_World a b c d e f1 f2 f3 f4 s1 q s3 t1 t2 t3 t4 t5 t6 t7 p.
Definition set_trade_stream (q : list OrderBookMessage) (w : World) : World :=
  let 'Build_World a b c d e f1 f2 f3 f4 s1 s2 s3 t1 t2 t3 t4 t5 t6 t7 p := w in
  Build_World a b c d e f1 f2 f3 f4 s1 s2 q t1 t2 t3 t4 t5 t6 t7 p.
Definition set_diff_listener_task (t : option ref) (w : World) : World :=
  let 'Build_World a b c d e f1 f2 f3 f4 s1 s2 s3 t1 t2 t3 t4 t5 t6 t7 p := w in
  Build_World a b c d e f1 f2 f3 f4 s1 s2 s3 t t2 t3 t4 t5 t6 t7 p.
Definition set_trade_listener_task (t : option ref) (w : World) : World :=
  let 'Build_World a b c d e f1 f2 f3 f4 s1 s2 s3 t1 t2 t3 t4 t5 t6 t7 p := w in
  Build_World a b c d e f1 f2 f3 f4 s1 s2 s3 t1 t t3 t4 t5 t6 t7 p.
Definition set_snapshot_listener_task (t : option ref) (w : World) : World :=
  let 'Build_World a b c d e f1 f2 f3 f4 s1 s2 s3 t1 t2 t3 t4 t5 t6 t7 p := w in
  Build_World a b c d e f1 f2 f3 f4 s1 s2 s3 t1 t2 t t4 t5 t6 t7 p.
Definition set_diff_router_task (t : option ref) (w : World) : World :=
  let 'Build_World a b c d e f1 f2 f3 f4 s1 s2 s3 t1 t2 t3 t4 t5 t6 t7 p := w in
  Build_World a b c d e f1 f2 f3 f4 s1 s2 s3 t1 t2 t3 t t5 t6 t7 p.
Definition set_snapshot_router_task (t : option ref) (w : World) : World :=
  let 'Build_World a b c d e f1 f2 f3 f4 s1 s2 s3 t1 t2 t3 t4 t5 t6 t7 p := w in
  Build_World a b c d e f1 f2 f3 f4 s1 s2 s3 t1 t2 t3 t4 t t6 t7 p.
Definition set_emit_trade_event_task (t : option ref) (w : World) : World :=
  let 'Build_World a b c d e f1 f2 f3 f4 s1 s2 s3 t1 t2 t3 t4 t5 t6 t7 p := w in
  Build_World a b c d e f1 f2 f3 f4 s1 s2 s3 t1 t2 t3 t4 t5 t t7 p.
Definition set_refresh_tracking_task (t : option ref) (w : World) : World :=
  let 'Build_World a b c d e f1 f2 f3 f4 s1 s2 s3 t1 t2 t3 t4 t5 t6 t7 p := w in
  Build_World a b c d e f1 f2 f3 f4 s1 s2 s3 t1 t2 t3 t4 t5 t6 t p.

(** ** The monad of one pass of a coroutine

    A pass reads its environment (the clock, whether a cancellation is
    delivered at an [await], what the data source answers), updates the
    locals of the coroutine and the world, and ends in one of three
    ways: it completes, it raises, or it is parked at an [await] that
    cannot complete yet. *)

Inductive exn := CancelledError | Exception (what : string).

Inductive result (S A : Type) : Type :=
| Val (a : A) (s : S)
| Exc (e : exn) (s : S)
| Blocked (s : S).
Global Arguments Val {S A} a s.
Global Arguments Exc {S A} e s.
Global Arguments Blocked {S A} s.

(** The [await]s at which a task can be suspended.  [put] on an
    [asyncio.Queue()] without [maxsize] never suspends. *)
Inductive await_point := AwaitGet | AwaitSleep | AwaitTrackingPairs.

Record Env := {
  time_time : float;
  cancelled_at : await_point → bool;
  tracking_pairs : completion * gmap string OrderBookTrackerEntry;
}.

Definition M (L A : Type) : Type := Env → L * World → result (L * World) A.

Definition ret {L A} (a : A) : M L A := λ _ s, Val a s.

Definition bind {L A B} (c : M L A) (k : A → M L B) : M L B :=
  λ env s,
    match c env s with
    | Val a s' => k a env s'
    | Exc e s' => Exc e s'
    | Blocked s' => Blocked s'
    end.

Definition raise {L A} (e : exn) : M L A := λ _ s, Exc e s.
Definition park {L A} : M L A := λ _ s, Blocked s.
Definition ask {L A} (f : Env → A) : M L A := λ env s, Val (f env) s.
Definition get_locals {L} : M L L := λ _ s, Val (fst s) s.
Definition set_locals {L} (l : L) : M L unit := λ _ s, Val () (l, snd s).
Definition gets {L A} (f : World → A) : M L A := λ _ s, Val (f (snd s)) s.
Definition modify {L} (f : World → World) : M L unit := λ _ s, Val () (fst s, f (snd s)).

Declare Scope pass_scope.
Delimit Scope pass_scope with pass.
Notation "x <- c ; k" := (bind c (λ x, k))
  (at level 20, c at level 100, k at level 200, only parsing) : pass_scope.
Notation "c ;; k" := (bind c (λ _, k))
  (at level 100, k at level 200, only parsing, right associativity) : pass_scope.
Local Open Scope pass_scope.

(** [try: body / except ...: handler]. *)
Definition try_except {L} (body : M L unit) (handler : exn → M L unit) : M L unit :=
  λ env s,
    match body env s with
    | Exc e s' => handler e env s'
    | r => r
    end.

(** [d[k]] on a dictionary: [KeyError] when the key is absent. *)
Definition subscript {L K V} `{Countable K} (d : gmap K V) (k : K) : M L V :=
  match d !! k with
  | Some v => ret v
  | None => raise (Exception "KeyError")
  end.

(** Dereferencing: a reference held by the program always denotes an
    object; a store without it is outside the model and the pass raises. *)
Definition deref {L V} (table : World → gmap ref V) (r : ref) : M L V :=
  tbl <- gets table;
  match tbl !! r with
  | Some v => ret v
  | None => raise (Exception "ReferenceError")
  end.

Definition log {L} (x : effect) : M L unit := modify (emit x).

(** [await asyncio.sleep(seconds)]. *)
Definition sleep {L} (seconds : Z) : M L unit :=
  log (Sleep seconds);;
  c <- ask (λ env, cancelled_at env AwaitSleep);
  if c : bool then raise CancelledError else ret ().

(** [await q.get()] on one of the three streams of [self]. *)
Definition stream_get {L} (read : World → list OrderBookMessage)
    (write : list OrderBookMessage → World → World) : M L OrderBookMessage :=
  c <- ask (λ env, cancelled_at env AwaitGet);
  if c : bool then raise CancelledError else
  q <- gets read;
  match q with
  | [] => park
  | m :: q' => modify (write q');; ret m
  end.

(** [await q.get()] on a queue object. *)
Definition queue_get {L} (q : ref) : M L OrderBookMessage :=
  c <- ask (λ env, cancelled_at env AwaitGet);
  if c : bool then raise CancelledError else
  items <- deref queues q;
  match items with
  | [] => park
  | m :: items' => modify (upd_queues <[q := items']>);; ret m
  end.

(** [await q.put(m)] on a queue object (unbounded: never suspends). *)
Definition queue_put {L} (q : ref) (m : OrderBookMessage) : M L unit :=
  items <- deref queues q;
  modify (upd_queues <[q := items ++ [m]]>).

(** A method call on the order book object [r]. *)
Definition call_book {L} (r : ref) (method : OrderBook → OrderBook * completion) : M L unit :=
  b <- deref books r;
  let '(b', c) := method b in
  modify (upd_books <[r := b']>);;
  match c with
  | Returns => ret ()
  | Throws what => raise (Exception what)
  end.

(** ** The coroutines, one pass of the loop of each *)

(** The two [except] clauses every loop but the trade emitter's ends in:
    [except asyncio.CancelledError: raise] and
    [except Exception: self.logger().error(...); await asyncio.sleep(5.0)]. *)
Definition except_clauses {L} (e : exn) : M L unit :=
  match e with
  | CancelledError => raise CancelledError
  | Exception _ =>
      log (LogError "Unknown error. Retrying after 5 seconds.");;
      sleep 5
  end.

(** The clauses of [_emit_trade_event_loop], which logs through
    [self.logger().network]. *)
Definition except_clauses_network {L} (e : exn) : M L unit :=
  match e with
  | CancelledError => raise CancelledError
  | Exception _ =>
      log (LogNetwork "Unexpected error routing order book messages.");;
      sleep 5
  end.

Definition add_accepted (n : Z) : M Counters unit :=
  c <- get_locals;
  set_locals {| last_message_timestamp := last_message_timestamp c;
                messages_accepted := messages_accepted c + n;
                messages_rejected := messages_rejected c |}.

Definition add_rejected (n : Z) : M Counters unit :=
  c <- get_locals;
  set_locals {| last_message_timestamp := last_message_timestamp c;
                messages_accepted := messages_accepted c;
                messages_rejected := messages_rejected c + n |}.

Definition reset_counters : M Counters unit :=
  c <- get_locals;
  set_locals {| last_message_timestamp := last_message_timestamp c;
                messages_accepted := 0;
                messages_rejected := 0 |}.

Definition set_last_message_timestamp (now : float) : M Counters unit :=
  c <- get_locals;
  set_locals {| last_message_timestamp := now;
                messages_accepted := messages_accepted c;
                messages_rejected := messages_rejected c |}.

(** The statements of [_order_book_diff_router] and of
    [_emit_trade_event_loop] before the loop. *)
Definition counters_init (env : Env) : Counters :=
  {| last_message_timestamp := time_time env;
     messages_accepted := 0;
     messages_rejected := 0 |}.

(** The body of the [try] of [_order_book_diff_router]. *)
Definition _order_book_diff_router_body : M Counters unit :=
  ob_message <- stream_get _order_book_diff_stream set_diff_stream;
  let pair := trading_pair ob_message in
  registered <- gets (λ self, _tracking_message_queues self !! pair);
  match registered with
  | None => add_rejected 1
  | Some message_queue =>
      order_books <- gets _order_books;
      order_book <- subscript order_books pair;
      book <- deref books order_book;
      if (snapshot_uid book >? update_id ob_message)%Z
      then add_rejected 1
      else
        queue_put message_queue ob_message;;
        add_accepted 1;;
        now <- ask time_time;
        c <- get_locals;
        (if (minute_index now >? minute_index (last_message_timestamp c))%Z
         then
           log (LogInfo "Diff messages processed: %d, rejected: %d"
                  [ArgInt (messages_accepted c); ArgInt (messages_rejected c)]);;
           reset_counters
         else ret ());;
        set_last_message_timestamp now
  end.

Definition _order_book_diff_router : M Counters unit :=
  try_except _order_book_diff_router_body except_clauses.

(** [_order_book_snapshot_router]: it has no locals. *)
Definition _order_book_snapshot_router_body : M unit unit :=
  ob_message <- stream_get _order_book_snapshot_stream set_snapshot_stream;
  let pair := trading_pair ob_message in
  registered <- gets (λ self, _tracking_message_queues self !! pair);
  match registered with
  | None => ret ()
  | Some message_queue => queue_put message_queue ob_message
  end.

Definition _order_book_snapshot_router : M unit unit :=
  try_except _order_book_snapshot_router_body except_clauses.

(** [while len(d) > n: d.popleft()] *)
Fixpoint popleft_while_longer {A} (n : nat) (d : list A) : list A :=
  match d with
  | [] => []
  | _ :: d' => if bool_decide (n < length d) then popleft_while_longer n d' else d
  end.

(** The statements of [_track_single_book] before the loop: a new deque
    is registered under the pair, the queue and the book are looked up. *)
Definition _track_single_book_prologue (pair : string) : M unit WorkerLocals :=
  windows <- gets deques;
  let past_diffs_window := fresh (dom windows) in
  modify (upd_deques <[past_diffs_window := []]>);;
  modify (upd_past_diffs_windows <[pair := past_diffs_window]>);;
  qs <- gets _tracking_message_queues;
  message_queue <- subscript qs pair;
  obs <- gets _order_books;
  order_book <- subscript obs pair;
  now <- ask time_time;
  ret {| wk_trading_pair := pair;
         wk_past_diffs_window := past_diffs_window;
         wk_message_queue := message_queue;
         wk_order_book := order_book;
         wk_last_message_timestamp := now;
         wk_diff_messages_accepted := 0 |}.

Definition set_diff_stats (now : float) (n : Z) : M WorkerLocals unit :=
  l <- get_locals;
  set_locals {| wk_trading_pair := wk_trading_pair l;
                wk_past_diffs_window := wk_past_diffs_window l;
                wk_message_queue := wk_message_queue l;
                wk_order_book := wk_order_book l;
                wk_last_message_timestamp := now;
                wk_diff_messages_accepted := n |}.

(** The body of the [try] of [_track_single_book]. *)
Definition _track_single_book_body : M WorkerLocals unit :=
  l <- get_locals;
  message <- queue_get (wk_message_queue l);
  match type message with
  | DIFF =>
      call_book (wk_order_book l)
        (λ b, apply_diffs b (bids message) (asks message) (update_id message));;
      window <- deref deques (wk_past_diffs_window l);
      modify (upd_deques <[wk_past_diffs_window l := window ++ [message]]>);;
      window <- deref deques (wk_past_diffs_window l);
      modify (upd_deques
        <[wk_past_diffs_window l := popleft_while_longer PAST_DIFF_WINDOW_SIZE window]>);;
      let accepted := (wk_diff_messages_accepted l + 1)%Z in
      now <- ask time_time;
      if (minute_index now >? minute_index (wk_last_message_timestamp l))%Z
      then
        log (LogDebug "Processed %d order book diffs for %s."
               [ArgInt accepted; ArgStr (wk_trading_pair l)]);;
        set_diff_stats now 0
      else set_diff_stats now accepted
  | SNAPSHOT =>
      past_diffs <- deref deques (wk_past_diffs_window l);
      call_book (wk_order_book l)
        (λ b, restore_from_snapshot_and_diffs b message past_diffs);;
      log (LogDebug "Processed order book snapshot for %s." [ArgStr (wk_trading_pair l)])
  | TRADE => ret ()
  end.

Definition _track_single_book : M WorkerLocals unit :=
  try_except _track_single_book_body except_clauses.

(** [float(x)]: [ValueError] or [TypeError] when [x] has no float value. *)
Definition float_ {L} (x : pyobj) : M L float :=
  match to_float x with
  | Some v => ret v
  | None => raise (Exception "ValueError")
  end.

(** The [OrderBookTradeEvent(...)] expression of the trade emitter; the
    keyword arguments are evaluated in the order they are written. *)
Definition trade_event_of {L} (trade_message : OrderBookMessage) : M L OrderBookTradeEvent :=
  price_obj <- subscript (content trade_message) "price";
  price <- float_ price_obj;
  amount_obj <- subscript (content trade_message) "amount";
  amount <- float_ amount_obj;
  flag <- subscript (content trade_message) "trade_type";
  ret {| ev_trading_pair := trading_pair trade_message;
         ev_timestamp := timestamp trade_message;
         ev_price := price;
         ev_amount := amount;
         ev_type := if equals_sell_value flag then SELL else SELL |}.

(** The body of the [try] of [_emit_trade_event_loop]. *)
Definition _emit_trade_event_loop_body : M Counters unit :=
  trade_message <- stream_get _order_book_trade_stream set_trade_stream;
  let pair := trading_pair trade_message in
  present <- gets (λ self, _order_books self !! pair);
  match present with
  | None => add_rejected 1
  | Some order_book =>
      event <- trade_event_of trade_message;
      call_book order_book (λ b, apply_trade b event);;
      add_accepted 1;;
      now <- ask time_time;
      c <- get_locals;
      (if (minute_index now >? minute_index (last_message_timestamp c))%Z
       then
         log (LogDebug "Trade messages processed: %d, rejected: %d"
                [ArgInt (messages_accepted c); ArgInt (messages_rejected c)]);;
         reset_counters
       else ret ());;
      set_last_message_timestamp now
  end.

Definition _emit_trade_event_loop : M Counters unit :=
  try_except _emit_trade_event_loop_body except_clauses_network.

(** ** The refresher *)

(** [self._tracking_tasks[key].done()], read through the store. *)
Definition task_done (w : World) (r : ref) : bool :=
  match tasks w !! r with
  | Some t => done t
  | None => true
  end.

(** [set([key for key in self._tracking_tasks.keys()
          if not self._tracking_tasks[key].done()])] *)
Definition tracking_trading_pairs (w : World) : gset string :=
  dom (filter (λ kr, task_done w kr.2 = false) (_tracking_tasks w)).

(** [for x in xs: body(x)] *)
Fixpoint for_each {L A} (xs : list A) (body : A → M L unit) : M L unit :=
  match xs with
  | [] => ret ()
  | x :: xs' => body x;; for_each xs' body
  end.

(** [safe_ensure_future(coroutine)], imported from
    [hummingbot.core.utils.async_utils]: a new task, not yet started,
    that runs the coroutine inside [safe_wrapper] (see the event loop
    below for what the wrapper does when the coroutine raises). *)
Definition safe_ensure_future {L} (c : coroutine) : M L ref :=
  ts <- gets tasks;
  let t := fresh (dom ts) in
  modify (upd_tasks <[t := {| coro := c; state := Pending |}]>);;
  ret t.

(** [del d[k]]: [KeyError] when the key is absent. *)
Definition del {L} (read : World → gmap string ref)
    (upd : (gmap string ref → gmap string ref) → World → World) (k : string) : M L unit :=
  d <- gets read;
  match d !! k with
  | Some _ => modify (upd (delete k))
  | None => raise (Exception "KeyError")
  end.

(** The body of the first [for] of [_refresh_tracking_tasks].  The
    order book of the entry and the new queue become objects of the
    store. *)
Definition start_tracking (available_pairs : gmap string OrderBookTrackerEntry)
    (pair : string) : M unit unit :=
  entry <- subscript available_pairs pair;
  bs <- gets books;
  let b := fresh (dom bs) in
  modify (upd_books <[b := order_book entry]>);;
  modify (upd_order_books <[pair := b]>);;
  qs <- gets queues;
  let q := fresh (dom qs) in
  modify (upd_queues <[q := []]>);;
  modify (upd_tracking_message_queues <[pair := q]>);;
  t <- safe_ensure_future (TrackSingleBook pair None);
  modify (upd_tracking_tasks <[pair := t]>);;
  log (LogInfo "Started order book tracking for %s." [ArgStr pair]).

(** The body of the second [for]. *)
Definition stop_tracking (pair : string) : M unit unit :=
  ts <- gets _tracking_tasks;
  t <- subscript ts pair;
  modify (upd_tasks (alter cancel t));;
  del _tracking_tasks upd_tracking_tasks pair;;
  del _order_books upd_order_books pair;;
  del _tracking_message_queues upd_tracking_message_queues pair;;
  log (LogInfo "Stopped order book tracking for %s." [ArgStr pair]).

(** [await self.data_source.get_tracking_pairs()] *)
Definition get_tracking_pairs {L} : M L (gmap string OrderBookTrackerEntry) :=
  c <- ask (λ env, cancelled_at env AwaitTrackingPairs);
  if c : bool then raise CancelledError else
  answer <- ask tracking_pairs;
  match answer.1 with
  | Returns => ret answer.2
  | Throws what => raise (Exception what)
  end.

Definition _refresh_tracking_tasks : M unit unit :=
  tracking <- gets tracking_trading_pairs;
  available_pairs <- get_tracking_pairs;
  let available_trading_pairs : gset string := dom available_pairs in
  let new_trading_pairs := available_trading_pairs ∖ tracking in
  let deleted_trading_pairs := tracking ∖ available_trading_pairs in
  for_each (elements new_trading_pairs) (start_tracking available_pairs);;
  for_each (elements deleted_trading_pairs) stop_tracking.

Definition _refresh_tracking_loop : M unit unit :=
  try_except (_refresh_tracking_tasks;; sleep 3600) except_clauses.

(** ** The facade: [__init__], [ready], [start], [stop] *)

Definition __init__ (trading_pairs : option (list string)) : World :=
  {| tasks := ∅; books := ∅; queues := ∅; deques := ∅; effects := [];
     _tracking_tasks := ∅; _order_books := ∅;
     _tracking_message_queues := ∅; _past_diffs_windows := ∅;
     _order_book_diff_stream := []; _order_book_snapshot_stream := [];
     _order_book_trade_stream := [];
     _order_book_diff_listener_task := None;
     _order_book_trade_listener_task := None;
     _order_book_snapshot_listener_task := None;
     _order_book_diff_router_task := None;
     _order_book_snapshot_router_task := None;
     _emit_trade_event_task := None;
     _refresh_tracking_task := None;
     _trading_pairs := trading_pairs |}.

(** [x or []] on an optional list. *)
Definition or_empty {A} (x : option (list A)) : list A :=
  match x with
  | Some (a :: l) => a :: l
  | _ => []
  end.

Definition ready (self : World) : bool :=
  let trading_pairs := or_empty (_trading_pairs self) in
  bool_decide (length trading_pairs ≤ size (_order_books self))
  && bool_decide (0 < size (_order_books self)).

Definition start (self : World) : World :=
  let t := fresh (dom (tasks self)) in
  set_emit_trade_event_task (Some t)
    (upd_tasks <[t := {| coro := EmitTradeEventLoop None; state := Pending |}]> self).

(** [if handle is not None: handle.cancel(); handle = None] *)
Definition cancel_and_clear (handle : World → option ref)
    (set : option ref → World → World) (self : World) : World :=
  match handle self with
  | Some t => set None (upd_tasks (alter cancel t) self)
  | None => self
  end.

Definition stop (self : World) : World :=
  let self := cancel_and_clear _emit_trade_event_task set_emit_trade_event_task self in
  let self := cancel_and_clear _order_book_diff_listener_task set_diff_listener_task self in
  let self := cancel_and_clear _order_book_snapshot_listener_task set_snapshot_listener_task self in
  let self := cancel_and_clear _refresh_tracking_task set_refresh_tracking_task self in
  let self := cancel_and_clear _order_book_diff_router_task set_diff_router_task self in
  let self := cancel_and_clear _order_book_snapshot_router_task set_snapshot_router_task self in
  self.

(** ** The event loop: resuming one task

    [resume env t] lets task [t] run from the [await] it is suspended on
    to the next one.  A task whose cancellation was requested gets
    [CancelledError] at the [await] it is suspended on, or before its
    first statement when it never ran.  A coroutine that raises ends its
    task.  The passes of a [Foreign] coroutine are not modelled. *)

Definition world_of {L A} (r : result (L * World) A) : World :=
  match r with
  | Val _ s | Exc _ s | Blocked s => s.2
  end.

Definition locals_of {L A} (r : result (L * World) A) : L :=
  match r with
  | Val _ s | Exc _ s | Blocked s => s.1
  end.

Definition finish (t : ref) (w : World) : World :=
  upd_tasks (alter (λ task, {| coro := coro task; state := Finished |}) t) w.

Definition suspend (t : ref) (c : coroutine) (w : World) : World :=
  upd_tasks (alter (λ task, {| coro := c; state := state task |}) t) w.

(** Modelled after the imported helper, whose code is not part of the
    module: [safe_ensure_future] of [hummingbot.core.utils.async_utils]
    runs the coroutine of the task it creates inside [safe_wrapper],
    [try: return await c / except asyncio.CancelledError: raise /
     except Exception as e: logging.getLogger(__name__).error(
       f"Unhandled error in background task: {str(e)}", exc_info=True)].
    A cancellation that leaves the coroutine ends the task; any other
    exception is logged and swallowed, and the task ends too.  The
    [what] of the exception stands in for [str(e)].  The tasks this
    class creates are made by [safe_ensure_future]; the loops of the
    routers and of the refresher, whose tasks a subclass creates, let
    nothing but a cancellation out, so the wrapper is applied to every
    task alike. *)
Definition safe_wrapper (t : ref) (e : exn) (w : World) : World :=
  match e with
  | CancelledError => finish t w
  | Exception what =>
      finish t (emit (LogError ("Unhandled error in background task: " +:+ what)) w)
  end.

Definition settle {L} (t : ref) (frame : L → coroutine)
    (r : result (L * World) unit) : World :=
  match r with
  | Val _ (l, w) | Blocked (l, w) => suspend t (frame l) w
  | Exc e (_, w) => safe_wrapper t e w
  end.

Definition run_coroutine (env : Env) (t : ref) (c : coroutine) (w : World) : World :=
  match c with
  | TrackSingleBook tp None =>
      match _track_single_book_prologue tp env ((), w) with
      | Val l (_, w') =>
          settle t (λ l, TrackSingleBook tp (Some l)) (_track_single_book env (l, w'))
      | Exc e (_, w') => safe_wrapper t e w'
      | Blocked (_, w') => finish t w'
      end
  | TrackSingleBook tp (Some l) =>
      settle t (λ l, TrackSingleBook tp (Some l)) (_track_single_book env (l, w))
  | OrderBookDiffRouter frame =>
      settle t (λ l, OrderBookDiffRouter (Some l))
        (_order_book_diff_router env (default (counters_init env) frame, w))
  | OrderBookSnapshotRouter =>
      settle t (λ _, OrderBookSnapshotRouter) (_order_book_snapshot_router env ((), w))
  | EmitTradeEventLoop frame =>
      settle t (λ l, EmitTradeEventLoop (Some l))
        (_emit_trade_event_loop env (default (counters_init env) frame, w))
  | RefreshTrackingLoop =>
      settle t (λ _, RefreshTrackingLoop) (_refresh_tracking_loop env ((), w))
  | Foreign => w
  end.

Definition started (c : coroutine) : bool :=
  match c with
  | TrackSingleBook _ None | OrderBookDiffRouter None | EmitTradeEventLoop None => false
  | _ => true
  end.

Definition deliver_cancellation (env : Env) : Env :=
  {| time_time := time_time env;
     cancelled_at := λ _, true;
     tracking_pairs := tracking_pairs env |}.

Definition resume (env : Env) (t : ref) (w : World) : World :=
  match tasks w !! t with
  | Some task =>
      match state task with
      | Pending => run_coroutine env t (coro task) w
      | Cancelling =>
          if started (coro task)
          then run_coroutine (deliver_cancellation env) t (coro task) w
          else finish t w
      | Finished => w
      end
  | None => w
  end.

(** The event loop resumes the tasks of a schedule one after the
    other, each in its own environment. *)
Definition resume_each (schedule : list (Env * ref)) (w : World) : World :=
  foldl (λ w x, resume x.1 x.2 w) w schedule.

(** Several passes of one coroutine in a row, one environment per pass,
    for as long as the pass completes. *)
Fixpoint passes {L} (c : M L unit) (envs : list Env) (s : L * World) : L * World :=
  match envs with
  | [] => s
  | env :: envs' =>
      match c env s with
      | Val _ s' => passes c envs' s'
      | Exc _ s' | Blocked s' => s'
      end
  end.

(** A loop re-raises cancellation: whenever the body of its [try]
    raises [CancelledError], so does the pass, from the very state the
    body left (nothing is logged, no pause is taken). *)
Definition reraises_cancellation {L} (body loop : M L unit) : Prop :=
  ∀ env s s', body env s = Exc CancelledError s' → loop env s = Exc CancelledError s'.

(** The buffer of a worker holds at most [PAST_DIFF_WINDOW_SIZE] diffs. *)
Definition window_bounded (s : WorkerLocals * World) : Prop :=
  ∃ window, deques s.2 !! wk_past_diffs_window s.1 = Some window
            ∧ length window ≤ PAST_DIFF_WINDOW_SIZE.

(** The last [n] elements of a list. *)
Definition last_n {A} (n : nat) (l : list A) : list A := drop (length l - n) l.

(** The tasks [stop] reaches: the ones held in the six attributes it
    tests, in the order it tests them. *)
Definition handles_of_stop (w : World) : list ref :=
  omap id [ _emit_trade_event_task w;
            _order_book_diff_listener_task w;
            _order_book_snapshot_listener_task w;
            _refresh_tracking_task w;
            _order_book_diff_router_task w;
            _order_book_snapshot_router_task w ].

(** [t.cancel()] for every [t] of a list, on the task table. *)
Definition cancel_all (ts : gmap ref Task) (hs : list ref) : gmap ref Task :=
  foldl (λ m h, alter cancel h m) ts hs.

(** The tracker's dictionaries agree on their keys and every reference
    they hold denotes an object of the store. *)
Definition consistent (w : World) : Prop :=
  dom (_order_books w) = dom (_tracking_tasks w)
  ∧ dom (_tracking_message_queues w) = dom (_tracking_tasks w)
  ∧ (∀ k r, _tracking_tasks w !! k = Some r → is_Some (tasks w !! r))
  ∧ (∀ k r, _order_books w !! k = Some r → is_Some (books w !! r))
  ∧ (∀ k r, _tracking_message_queues w !! k = Some r → is_Some (queues w !! r)).

(** The four dictionaries of [self]. *)
Definition dictionaries_of (w : World) :
    gmap string ref * gmap string ref * gmap string ref * gmap string ref :=
  (_tracking_tasks w, _order_books w, _tracking_message_queues w, _past_diffs_windows w).

(** The test of the diff router on a message whose pair has a book:
    [not (order_book.snapshot_uid > ob_message.update_id)]. *)
Definition fresh_enough (w : World) (m : OrderBookMessage) : bool :=
  match _order_books w !! trading_pair m with
  | Some b =>
      match books w !! b with
      | Some book => negb (snapshot_uid book >? update_id m)%Z
      | None => false
      end
  | None => false
  end.

(** What the refresher has no statement on: the buffers, their
    dictionary, the three streams, the seven task attributes and the
    data source's list of pairs. *)
Definition beyond_refresher (w : World) :=
  (deques w, _past_diffs_windows w,
   (_order_book_diff_stream w, _order_book_snapshot_stream w, _order_book_trade_stream w),
   (_order_book_diff_listener_task w, _order_book_trade_listener_task w,
    _order_book_snapshot_listener_task w, _order_book_diff_router_task w,
    _order_book_snapshot_router_task w, _emit_trade_event_task w,
    _refresh_tracking_task w),
   _trading_pairs w).

(** [w'] comes from [w] by adding objects to the store and cancelling
    tasks, with everything the refresher has no statement on kept. *)
Definition grows_from (w w' : World) : Prop :=
  beyond_refresher w' = beyond_refresher w
  ∧ (∀ r x, books w !! r = Some x → books w' !! r = Some x)
  ∧ (∀ r x, queues w !! r = Some x → queues w' !! r = Some x)
  ∧ (∀ r x, tasks w !! r = Some x →
       tasks w' !! r = Some x ∨ tasks w' !! r = Some (cancel x)).

(** The state of a book after [apply_diffs] was called on it for each
    message of a list, first to last. *)
Definition apply_all (book : OrderBook) (msgs : list OrderBookMessage) : OrderBook :=
  foldl (λ b m, (apply_diffs b (bids m) (asks m) (update_id m)).1) book msgs.

(** Whether the [OrderBookTradeEvent(...)] expression can be evaluated
    on a trade message: the three keys are in the content and the price
    and the amount have a float value. *)
Definition trade_content_ok (m : OrderBookMessage) : bool :=
  match content m !! "price", content m !! "amount", content m !! "trade_type" with
  | Some price, Some amount, Some _ =>
      match to_float price, to_float amount with
      | Some _, Some _ => true
      | _, _ => false
      end
  | _, _, _ => false
  end.

(** Whether the diff router appends [m] to the queue [q]. *)
Definition forwarded_to (w : World) (q : ref) (m : OrderBookMessage) : bool :=
  bool_decide (_tracking_message_queues w !! trading_pair m = Some q) && fresh_enough w m.

(** Every pair with a registered queue has that queue in the store and
    a book in [_order_books] and in the store. *)
Definition registered_have_books (w : World) : Prop :=
  ∀ k q, _tracking_message_queues w !! k = Some q →
    is_Some (queues w !! q)
    ∧ ∃ b, _order_books w !! k = Some b ∧ is_Some (books w !! b).

End tracker.

(** ** A sample instance of the collaborators, to run the tracker on *)

Module Sample.

(** Modelled from the spec: the Book State of one instrument, whose
    class [OrderBook] is imported by the module.  A book records its
    [snapshot_uid], the update ids applied to it and the sides of the
    trades applied to it. *)
Record book := { uid : Z; applied : list Z; trades : list TradeType }.

(** Modelled from the spec: the imported types.  A float is a whole
    number of seconds, a value of a message content is an integer, a
    row is a (price, size) pair, and [TradeType.SELL.value] is 2. *)
Definition collaborators : Collaborators :=
  {| float := Z;
     minute_index := λ t, (t `quot` 60)%Z;
     pyobj := Z;
     to_float := λ x, Some x;
     equals_sell_value := λ x, bool_decide (x = 2%Z);
     rows := list (Z * Z);
     OrderBook := book;
     snapshot_uid := uid |}.

(** Modelled from the spec: after [apply_diffs] the [snapshot_uid] is
    the update id of the diff just applied. *)
Definition diffs_applied (b : book) (bids asks : list (Z * Z)) (u : Z) : book * completion :=
  ({| uid := u; applied := applied b ++ [u]; trades := trades b |}, Returns).

(** Modelled from the spec: [restore_from_snapshot_and_diffs] takes the
    snapshot as the new baseline and re-applies, in order, the buffered
    diffs whose update id is greater than the snapshot's. *)
Definition restored (b : book) (m : @OrderBookMessage collaborators)
    (diffs : list (@OrderBookMessage collaborators)) : book * completion :=
  let newer := filter (λ u, update_id m < u)%Z (update_id <$> diffs) in
  ({| uid := default (update_id m) (last newer);
      applied := update_id m :: newer;
      trades := trades b |}, Returns).

(** Modelled from the spec: [apply_trade] records the trade and leaves
    the price levels and the [snapshot_uid] alone. *)
Definition trade_applied (b : book) (ev : @OrderBookTradeEvent collaborators) : book * completion :=
  ({| uid := uid b; applied := applied b; trades := trades b ++ [ev_type ev] |}, Returns).

Definition methods : @OrderBookMethods collaborators :=
  @Build_OrderBookMethods collaborators diffs_applied restored trade_applied.

#[local] Existing Instance collaborators.
#[local] Existing Instance methods.

(** Messages, environments and trackers to run the coroutines on. *)
Definition message (ty : OrderBookMessageType) (tp : string) (u : Z) : OrderBookMessage :=
  {| type := ty; trading_pair := tp; update_id := u; timestamp := 0%Z;
     content := ∅; bids := []; asks := [] |}.

Definition trade_message (tp : string) (flag : Z) : OrderBookMessage :=
  {| type := TRADE; trading_pair := tp; update_id := (-1)%Z; timestamp := 0%Z;
     content := {[ "price" := 100%Z; "amount" := 3%Z; "trade_type" := flag ]};
     bids := []; asks := [] |}.

Definition book_at (u : Z) : book := {| uid := u; applied := []; trades := [] |}.

Definition directory (tps : list string) (u : Z) : gmap string OrderBookTrackerEntry :=
  list_to_map ((λ tp, (tp, {| order_book := book_at u |})) <$> tps).

(** The clock reads [t]; no cancellation is delivered; the data source
    answers with books at update id [u] for the pairs [tps]. *)
Definition env_at (t : Z) (tps : list string) (u : Z) : Env :=
  {| time_time := t; cancelled_at := λ _, false;
     tracking_pairs := (Returns, directory tps u) |}.

Definition quiet : Env := env_at 10 [] 0.

(** The same with a cancellation delivered at every [await]. *)
Definition cancelling : Env := deliver_cancellation quiet.

(** A tracker that, after one pass of the refresher, tracks the pair
    ETHUSDT with a book at update id 5. *)
Definition tracking_eth : World :=
  world_of (_refresh_tracking_tasks (env_at 10 ["ETHUSDT"] 5) ((), __init__ None)).

(** The same after [start] and after the worker of the pair (task 0) ran
    up to its first [await]; then with a diff waiting in its queue. *)
Definition running_eth : World := resume quiet 0 (start tracking_eth).

Definition running_eth_in_flight : World :=
  upd_queues <[0 := [message DIFF "ETHUSDT" 7]]> running_eth.

(** The locals of the worker of ETHUSDT in [running_eth]. *)
Definition eth_worker : WorkerLocals :=
  {| wk_trading_pair := "ETHUSDT"; wk_past_diffs_window := 0; wk_message_queue := 0;
     wk_order_book := 0; wk_last_message_timestamp := 10%Z;
     wk_diff_messages_accepted := 0 |}.


(** The tracker of B and C before its workers ran. *)
Definition tracking_b_c_new : World :=
  world_of (_refresh_tracking_tasks (env_at 10 ["B"; "C"] 0) ((), __init__ None)).


(** The diffs with update ids [u], [u+1], ..., [u+n-1] of ETHUSDT. *)
Definition diffs_from (u : Z) (n : nat) : list OrderBookMessage :=
  (λ i : nat, message DIFF "ETHUSDT" (u + Z.of_nat i)) <$> seq 0 n.

(** The worker of ETHUSDT with the diffs 5 to 8 in its buffer and the
    snapshot 6 in its queue; with 33 diffs in its queue; with a trade
    message in its queue; with its cancellation requested. *)
Definition snapshot_pending : World :=
  upd_queues <[0 := [message SNAPSHOT "ETHUSDT" 6]]>
    (upd_deques <[0 := diffs_from 5 4]> running_eth).

Definition diffs_pending : World := upd_queues <[0 := diffs_from 1 33]> running_eth.

Definition trade_pending : World :=
  upd_queues <[0 := [trade_message "ETHUSDT" 2]]> running_eth.

Definition cancel_requested : World :=
  upd_tasks (alter cancel 0) running_eth_in_flight.

(** Modelled from the spec: a book whose [apply_diffs] raises on a
    negative update id and leaves the book as it was. *)
Definition diffs_applied_checked (b : book) (bids asks : list (Z * Z)) (u : Z) :
    book * completion :=
  if (u <? 0)%Z then (b, Throws "ValueError") else diffs_applied b bids asks u.

Definition checking_methods : @OrderBookMethods collaborators :=
  @Build_OrderBookMethods collaborators diffs_applied_checked restored trade_applied.

(** An environment in which the data source raises. *)
Definition data_source_down : Env :=
  {| time_time := 10%Z; cancelled_at := λ _, false;
     tracking_pairs := (Throws "TimeoutError", ∅) |}.

(** The tracker of ETHUSDT whose [_order_books] lost the pair, and the
    one whose [_tracking_message_queues] lost it. *)
Definition eth_without_book : World := upd_order_books (delete "ETHUSDT") tracking_eth.

Definition eth_without_queue : World :=
  upd_tracking_message_queues (delete "ETHUSDT") tracking_eth.

(** Five diffs: for B, for C, for B, for a pair that is not tracked,
    and one for B that is older than the book of B. *)
Definition mixed_diffs : list OrderBookMessage :=
  [message DIFF "B" 1; message DIFF "C" 2; message DIFF "B" 3;
   message DIFF "XRPUSDT" 4; message DIFF "B" (-1)].

(** Trackers whose data source lists the two pairs ETHUSDT and BTCUSDT,
    after a first pass of the refresher in which it answered with the
    first of them only, and with both. *)
Definition one_of_two : World :=
  world_of (_refresh_tracking_tasks (env_at 10 ["ETHUSDT"] 5)
              ((), __init__ (Some ["ETHUSDT"; "BTCUSDT"]))).

Definition two_of_two : World :=
  world_of (_refresh_tracking_tasks (env_at 10 ["ETHUSDT"; "BTCUSDT"] 5)
              ((), __init__ (Some ["ETHUSDT"; "BTCUSDT"]))).

End Sample.

(** * Properties *)

Section properties.
Context {collaborators : Collaborators} {methods : OrderBookMethods}.

(** Unfolds one pass down to the hypotheses on the world. *)
Ltac unfold_pass :=
  cbv beta iota delta
    [try_except bind ret raise park ask gets modify get_locals
     set_locals log sleep stream_get queue_get queue_put call_book
     deref subscript add_accepted add_rejected reset_counters
     set_last_message_timestamp set_diff_stats except_clauses
     except_clauses_network world_of locals_of fst snd]; simpl.

(** ** The diff router *)

(** C1 (as amended). For a diff at the head of the diff stream whose pair
    has a registered queue and book: when its [update_id] is strictly
    below the book's [snapshot_uid] the pass only consumes it and adds
    one to the rejected counter (queues and books stay as they were);
    otherwise, equality included, it is appended to the pair's queue and
    the accepted counter is incremented, after which the counters are
    logged and reset when the clock has entered a new minute. *)
Theorem diff_router_staleness (env : Env) (c : Counters) (w : World)
    (m : OrderBookMessage) (rest : list OrderBookMessage)
    (q b : ref) (book : OrderBook) (items : list OrderBookMessage) :
  cancelled_at env AwaitGet = false →
  _order_book_diff_stream w = m :: rest →
  _tracking_message_queues w !! trading_pair m = Some q →
  _order_books w !! trading_pair m = Some b →
  books w !! b = Some book →
  queues w !! q = Some items →
  let r := _order_book_diff_router env (c, w) in
  ((update_id m < snapshot_uid book)%Z →
     r = Val () ({| last_message_timestamp := last_message_timestamp c;
                    messages_accepted := messages_accepted c;
                    messages_rejected := messages_rejected c + 1 |},
                 set_diff_stream rest w)
     ∧ queues (world_of r) = queues w
     ∧ books (world_of r) = books w)
  ∧ ((snapshot_uid book ≤ update_id m)%Z →
     let w' := upd_queues <[q := items ++ [m]]> (set_diff_stream rest w) in
     let n := (messages_accepted c + 1)%Z in
     r = (if (minute_index (time_time env) >? minute_index (last_message_timestamp c))%Z
          then Val () ({| last_message_timestamp := time_time env;
                          messages_accepted := 0;
                          messages_rejected := 0 |},
                       emit (LogInfo "Diff messages processed: %d, rejected: %d"
                               [ArgInt n; ArgInt (messages_rejected c)]) w')
          else Val () ({| last_message_timestamp := time_time env;
                          messages_accepted := n;
                          messages_rejected := messages_rejected c |}, w'))
     ∧ queues (world_of r) !! q = Some (items ++ [m])
     ∧ books (world_of r) = books w).
Proof.
  intros Hget Hs Hq Hb Hbook Hitems r. subst r.
  unfold _order_book_diff_router, _order_book_diff_router_body.
  destruct w; simpl in *. unfold_pass.
  rewrite Hget, Hs; simpl. rewrite Hq; simpl. rewrite Hb; simpl. rewrite Hbook; simpl.
  split; intros Hcmp.
  - assert ((snapshot_uid book >? update_id m)%Z = true) as -> by lia. simpl. done.
  - assert ((snapshot_uid book >? update_id m)%Z = false) as -> by lia. simpl.
    rewrite Hitems; simpl.
    destruct (minute_index (time_time env) >? minute_index (last_message_timestamp c))%Z;
      simpl; rewrite lookup_insert_eq; done.
Qed.

(** ** The snapshot router *)

(** C8. A snapshot at the head of the snapshot stream is appended to the
    queue of its pair exactly when the pair has a registered queue; the
    books of the world, and with them every [snapshot_uid], play no part.
    For a pair without a queue the pass only consumes the message: no
    queue changes, nothing is logged, and the coroutine has no counter. *)
Theorem snapshot_router_forwards (env : Env) (w : World)
    (m : OrderBookMessage) (rest : list OrderBookMessage) :
  cancelled_at env AwaitGet = false →
  _order_book_snapshot_stream w = m :: rest →
  let r := _order_book_snapshot_router env ((), w) in
  (∀ q items,
     _tracking_message_queues w !! trading_pair m = Some q →
     queues w !! q = Some items →
     r = Val () ((), upd_queues <[q := items ++ [m]]> (set_snapshot_stream rest w))
     ∧ queues (world_of r) !! q = Some (items ++ [m])
     ∧ books (world_of r) = books w)
  ∧ (_tracking_message_queues w !! trading_pair m = None →
     r = Val () ((), set_snapshot_stream rest w)
     ∧ queues (world_of r) = queues w
     ∧ books (world_of r) = books w
     ∧ effects (world_of r) = effects w).
Proof.
  intros Hget Hs r. subst r.
  unfold _order_book_snapshot_router, _order_book_snapshot_router_body.
  destruct w; simpl in *. unfold_pass. rewrite Hget, Hs; simpl.
  split.
  - intros q items Hq Hitems. rewrite Hq; simpl. rewrite Hitems; simpl.
    by rewrite lookup_insert_eq.
  - intros Hq. by rewrite Hq.
Qed.

(** ** The worker of one pair *)

(** C10. A message that is neither a diff nor a snapshot is taken off the
    queue and dropped: the pass completes without raising, with the same
    locals (so the same counter), the same books, the same buffers and
    nothing logged. *)
Theorem worker_drops_other_types (env : Env) (l : WorkerLocals) (w : World)
    (m : OrderBookMessage) (rest : list OrderBookMessage) :
  cancelled_at env AwaitGet = false →
  queues w !! wk_message_queue l = Some (m :: rest) →
  type m ≠ DIFF →
  type m ≠ SNAPSHOT →
  let r := _track_single_book env (l, w) in
  r = Val () (l, upd_queues <[wk_message_queue l := rest]> w)
  ∧ books (world_of r) = books w
  ∧ deques (world_of r) = deques w
  ∧ effects (world_of r) = effects w.
Proof.
  intros Hget Hq Hd Hs r. subst r.
  unfold _track_single_book, _track_single_book_body.
  destruct w; simpl in *. unfold_pass. rewrite Hget; simpl. rewrite Hq; simpl.
  by destruct (type m).
Qed.

(** C5. On a snapshot the worker calls
    [restore_from_snapshot_and_diffs] on its book with the snapshot and
    the whole content of its buffer, oldest first, and the buffers are
    left as they were; when the call returns, the pass completes and
    only the queue, the book and the log differ. *)
Theorem worker_snapshot_replays_buffer (env : Env) (l : WorkerLocals) (w : World)
    (m : OrderBookMessage) (rest window : list OrderBookMessage) (book : OrderBook) :
  cancelled_at env AwaitGet = false →
  queues w !! wk_message_queue l = Some (m :: rest) →
  type m = SNAPSHOT →
  deques w !! wk_past_diffs_window l = Some window →
  books w !! wk_order_book l = Some book →
  let r := _track_single_book env (l, w) in
  let call := restore_from_snapshot_and_diffs book m window in
  books (world_of r) = <[wk_order_book l := call.1]> (books w)
  ∧ deques (world_of r) = deques w
  ∧ (call.2 = Returns →
     r = Val () (l,
           emit (LogDebug "Processed order book snapshot for %s." [ArgStr (wk_trading_pair l)])
             (upd_books <[wk_order_book l := call.1]>
                (upd_queues <[wk_message_queue l := rest]> w)))).
Proof.
  intros Hget Hq Hty Hwin Hbook r call. subst r call.
  unfold _track_single_book, _track_single_book_body.
  destruct w; simpl in *. unfold_pass. rewrite Hget; simpl. rewrite Hq; simpl.
  rewrite Hty; simpl. rewrite Hwin; simpl. rewrite Hbook; simpl.
  destruct (restore_from_snapshot_and_diffs book m window) as [b' [|what]]; simpl.
  - done.
  - destruct (cancelled_at env AwaitSleep); simpl; done.
Qed.

(** ** The trade emitter *)

(** C4. For a trade message whose pair has a book, the event handed to
    [apply_trade] carries the pair, the timestamp, the price and the
    amount of the message and the side [SELL], whatever the
    [trade_type] entry of the content is. *)
Theorem trade_event_is_always_sell (env : Env) (c : Counters) (w : World)
    (m : OrderBookMessage) (rest : list OrderBookMessage)
    (b : ref) (book : OrderBook) (price amount flag : pyobj) (fprice famount : float) :
  cancelled_at env AwaitGet = false →
  _order_book_trade_stream w = m :: rest →
  _order_books w !! trading_pair m = Some b →
  books w !! b = Some book →
  content m !! "price" = Some price → to_float price = Some fprice →
  content m !! "amount" = Some amount → to_float amount = Some famount →
  content m !! "trade_type" = Some flag →
  let event := {| ev_trading_pair := trading_pair m;
                  ev_timestamp := timestamp m;
                  ev_price := fprice;
                  ev_amount := famount;
                  ev_type := SELL |} in
  let r := _emit_trade_event_loop env (c, w) in
  trade_event_of m env (c, set_trade_stream rest w) = Val event (c, set_trade_stream rest w)
  ∧ books (world_of r) = <[b := (apply_trade book event).1]> (books w).
Proof.
  intros Hget Hs Hb Hbook Hp Hfp Ha Hfa Hflag event r. subst event r.
  split.
  - unfold trade_event_of, float_. unfold_pass.
    rewrite Hp; simpl. rewrite Hfp; simpl. rewrite Ha; simpl. rewrite Hfa; simpl.
    rewrite Hflag; simpl. by destruct (equals_sell_value flag).
  - unfold _emit_trade_event_loop, _emit_trade_event_loop_body, trade_event_of, float_.
    destruct w; simpl in *. unfold_pass. rewrite Hget, Hs; simpl. rewrite Hb; simpl.
    rewrite Hp; simpl. rewrite Hfp; simpl. rewrite Ha; simpl. rewrite Hfa; simpl.
    rewrite Hflag; simpl. rewrite Hbook; simpl.
    assert ((if equals_sell_value flag then SELL else SELL) = SELL) as ->
      by (by destruct (equals_sell_value flag)).
    destruct (apply_trade _ _) as [b' [|what]]; simpl.
    + by destruct (_ >? _)%Z.
    + by destruct (cancelled_at env AwaitSleep).
Qed.

(** ** The facade *)

(** [len(x or [])] is the length of the list, and 0 for [None]. *)
Lemma length_or_empty {A} (x : option (list A)) :
  length (or_empty x) = match x with Some l => length l | None => 0 end.
Proof. by destruct x as [[|a l]|]. Qed.

(** C7. [ready] holds exactly when there are at least as many books as
    the data source lists trading pairs and there is at least one book.
    With a list [l] of desired pairs this is [length l] books or more
    and one at least; without a list ([None]) it is one book or more.
    It never holds on an empty [_order_books], and it holds with one
    book or more when the data source lists no pair. *)
Theorem ready_iff (w : World) :
  (∀ l, _trading_pairs w = Some l →
     (ready w = true ↔
        length l ≤ size (_order_books w) ∧ 1 ≤ size (_order_books w)))
  ∧ (_trading_pairs w = None → (ready w = true ↔ 1 ≤ size (_order_books w)))
  ∧ (_order_books w = ∅ → ready w = false)
  ∧ (_trading_pairs w = None ∨ _trading_pairs w = Some [] →
       1 ≤ size (_order_books w) → ready w = true).
Proof.
  assert (ready w = true ↔
            match _trading_pairs w with Some l => length l | None => 0 end
              ≤ size (_order_books w) ∧ 1 ≤ size (_order_books w)) as Hready.
  { unfold ready. rewrite length_or_empty.
    rewrite andb_true_iff, !bool_decide_eq_true. lia. }
  split; [|split; [|split]].
  - intros l Hl. by rewrite Hl in Hready.
  - intros Hnone. rewrite Hnone in Hready. rewrite Hready. lia.
  - intros Hempty. apply not_true_is_false. intros [_ Hsz]%Hready.
    rewrite Hempty, map_size_empty in Hsz. lia.
  - intros Hnone Hsz. apply Hready. destruct Hnone as [-> | ->]; simpl; lia.
Qed.

(** ** Cancellation *)

Lemma try_except_reraises {L} (body : M L unit) :
  reraises_cancellation body (try_except body except_clauses).
Proof. intros env s s' Hb. unfold try_except. by rewrite Hb. Qed.

Lemma try_except_network_reraises {L} (body : M L unit) :
  reraises_cancellation body (try_except body except_clauses_network).
Proof. intros env s s' Hb. unfold try_except. by rewrite Hb. Qed.

(** A task with a pending cancellation ends the next time it is
    resumed, and that resumption touches nothing but the task. *)
Lemma resume_cancelling (env : Env) (t : ref) (w : World) (task : Task) :
  tasks w !! t = Some task →
  state task = Cancelling →
  coro task ≠ Foreign →
  resume env t w = finish t w.
Proof.
  intros Ht Hst Hco. unfold resume. rewrite Ht, Hst.
  destruct (coro task) as [tp [l|]|[c|]| |[c|]| |]; simpl; done.
Qed.

(** C9. In each of the five loops a [CancelledError] raised in the body
    of the [try] leaves the pass as [CancelledError], from the state the
    body left: the recovery clause (log, five seconds of sleep) is not
    run.  A cancellation delivered at the [await] a loop is suspended on
    therefore ends the pass with the state untouched, and a task whose
    cancellation was requested is done after its next resumption, with
    nothing logged and no pause taken. *)
Theorem cancellation_is_reraised :
  reraises_cancellation _order_book_diff_router_body _order_book_diff_router
  ∧ reraises_cancellation _order_book_snapshot_router_body _order_book_snapshot_router
  ∧ reraises_cancellation _track_single_book_body _track_single_book
  ∧ reraises_cancellation _emit_trade_event_loop_body _emit_trade_event_loop
  ∧ reraises_cancellation (bind _refresh_tracking_tasks (λ _, sleep 3600))
      _refresh_tracking_loop
  ∧ (∀ env, cancelled_at env AwaitGet = true →
       (∀ s, _order_book_diff_router env s = Exc CancelledError s)
       ∧ (∀ s, _order_book_snapshot_router env s = Exc CancelledError s)
       ∧ (∀ s, _track_single_book env s = Exc CancelledError s)
       ∧ (∀ s, _emit_trade_event_loop env s = Exc CancelledError s))
  ∧ (∀ env, cancelled_at env AwaitTrackingPairs = true →
       ∀ s, _refresh_tracking_loop env s = Exc CancelledError s)
  ∧ (∀ env t w task,
       tasks w !! t = Some task → state task = Cancelling → coro task ≠ Foreign →
       let w' := resume env t w in
       state <$> tasks w' !! t = Some Finished
       ∧ effects w' = effects w
       ∧ books w' = books w
       ∧ queues w' = queues w).
Proof.
  split; [apply try_except_reraises|].
  split; [apply try_except_reraises|].
  split; [apply try_except_reraises|].
  split; [apply try_except_network_reraises|].
  split; [apply try_except_reraises|].
  split; [|split].
  - intros env Hc. repeat split; intros [l w].
    + unfold _order_book_diff_router, _order_book_diff_router_body.
      unfold_pass. by rewrite Hc.
    + unfold _order_book_snapshot_router, _order_book_snapshot_router_body.
      unfold_pass. by rewrite Hc.
    + unfold _track_single_book, _track_single_book_body.
      unfold_pass. by rewrite Hc.
    + unfold _emit_trade_event_loop, _emit_trade_event_loop_body.
      unfold_pass. by rewrite Hc.
  - intros env Hc [l w].
    unfold _refresh_tracking_loop, _refresh_tracking_tasks, get_tracking_pairs.
    unfold_pass. by rewrite Hc.
  - intros env t w task Ht Hst Hco w'. subst w'.
    rewrite (resume_cancelling env t w task Ht Hst Hco).
    unfold finish. destruct w; simpl in *.
    rewrite lookup_alter_eq, Ht. done.
Qed.

(** ** The reconciliation buffer *)

Lemma popleft_while_longer_last_n {A} (n : nat) (d : list A) :
  popleft_while_longer n d = last_n n d.
Proof.
  unfold last_n. induction d as [|x d IH]; simpl; [done|].
  case_bool_decide as Hlen.
  - rewrite IH. destruct (length d - n) eqn:E1; simpl in *.
    + assert (length d = n) as Hn by lia. subst n.
      by replace (S (length d) - length d) with 1 by lia.
    + by replace (S (length d) - n) with (S (S n0)) by lia.
  - by replace (S (length d) - n) with 0 by (simpl in *; lia).
Qed.

Lemma length_last_n {A} (n : nat) (l : list A) : length (last_n n l) ≤ n.
Proof. unfold last_n. rewrite length_drop. lia. Qed.

Lemma last_n_short {A} (n : nat) (l : list A) : length l ≤ n → last_n n l = l.
Proof. unfold last_n. intros Hl. replace (length l - n) with 0 by lia. done. Qed.

Lemma last_n_app_last_n {A} (n : nat) (a b : list A) :
  last_n n (last_n n a ++ b) = last_n n (a ++ b).
Proof.
  unfold last_n. rewrite !length_app, length_drop.
  destruct (decide (length a ≤ n)) as [Hle|Hgt].
  - replace (length a - n) with 0 by lia. simpl.
    by replace (length a - 0) with (length a) by lia.
  - replace (length a - (length a - n) + length b - n) with (length b) by lia.
    replace (length a + length b - n) with ((length a - n) + length b) by lia.
    rewrite <- drop_drop. by rewrite (drop_app_le a b (length a - n)) by lia.
Qed.

(** What one pass of the worker can do to the buffers: nothing, or
    append one diff to its own buffer and trim it from the left. *)
Lemma worker_pass_deques (env : Env) (l : WorkerLocals) (w : World) :
  let r := _track_single_book env (l, w) in
  wk_past_diffs_window (locals_of r) = wk_past_diffs_window l
  ∧ (deques (world_of r) = deques w
     ∨ ∃ window m,
         deques w !! wk_past_diffs_window l = Some window
         ∧ deques (world_of r) =
             <[wk_past_diffs_window l :=
                 popleft_while_longer PAST_DIFF_WINDOW_SIZE (window ++ [m])]> (deques w)).
Proof.
  intros r. subst r. unfold _track_single_book, _track_single_book_body.
  destruct w; simpl. unfold_pass.
  destruct (cancelled_at env AwaitGet); simpl; [by auto|].
  destruct (queues0 !! wk_message_queue l) as [[|m rest]|]; simpl;
    [destruct (cancelled_at env AwaitSleep); simpl; by auto| |
     destruct (cancelled_at env AwaitSleep); simpl; by auto].
  destruct (type m); simpl.
  - destruct (deques0 !! wk_past_diffs_window l) as [window|]; simpl;
      [|destruct (cancelled_at env AwaitSleep); simpl; by auto].
    destruct (books0 !! wk_order_book l) as [book|]; simpl;
      [|destruct (cancelled_at env AwaitSleep); simpl; by auto].
    destruct (restore_from_snapshot_and_diffs book m window) as [b' [|what]]; simpl;
      [by auto|destruct (cancelled_at env AwaitSleep); simpl; by auto].
  - destruct (books0 !! wk_order_book l) as [book|]; simpl;
      [|destruct (cancelled_at env AwaitSleep); simpl; by auto].
    destruct (apply_diffs book (bids m) (asks m) (update_id m)) as [b' [|what]]; simpl;
      [|destruct (cancelled_at env AwaitSleep); simpl; by auto].
    destruct (deques0 !! wk_past_diffs_window l) as [window|] eqn:Hwin; simpl;
      [|destruct (cancelled_at env AwaitSleep); simpl; by auto].
    rewrite lookup_insert_eq; simpl.
    destruct (_ >? _)%Z; simpl; (split; [done|]); right; exists window, m;
      by rewrite insert_insert_eq.
  - by auto.
Qed.

(** One pass of the worker that is not cancelled and whose diff, if it
    handles one, is applied: the message leaves the queue, a diff enters
    the buffer. *)
Lemma worker_pass_window (env : Env) (l : WorkerLocals) (w : World)
    (m : OrderBookMessage) (rest window : list OrderBookMessage) (book : OrderBook) :
  (∀ p, cancelled_at env p = false) →
  queues w !! wk_message_queue l = Some (m :: rest) →
  deques w !! wk_past_diffs_window l = Some window →
  books w !! wk_order_book l = Some book →
  (type m = DIFF → (apply_diffs book (bids m) (asks m) (update_id m)).2 = Returns) →
  ∃ l' w',
    _track_single_book env (l, w) = Val () (l', w')
    ∧ wk_message_queue l' = wk_message_queue l
    ∧ wk_past_diffs_window l' = wk_past_diffs_window l
    ∧ wk_order_book l' = wk_order_book l
    ∧ queues w' !! wk_message_queue l = Some rest
    ∧ is_Some (books w' !! wk_order_book l)
    ∧ deques w' !! wk_past_diffs_window l =
        Some (if decide (type m = DIFF)
              then last_n PAST_DIFF_WINDOW_SIZE (window ++ [m]) else window).
Proof.
  intros Hc Hq Hwin Hbook Hret.
  unfold _track_single_book, _track_single_book_body.
  destruct w; simpl in *. unfold_pass. rewrite (Hc AwaitGet); simpl.
  rewrite Hq; simpl. destruct (type m) eqn:Hty; simpl.
  - rewrite Hwin; simpl. rewrite Hbook; simpl.
    destruct (restore_from_snapshot_and_diffs book m window) as [b' [|what]]; simpl;
      rewrite ?(Hc AwaitSleep); simpl;
      eexists _, _; (split; [done|]); simpl;
      rewrite !lookup_insert_eq; eauto 10.
  - rewrite Hbook; simpl. specialize (Hret eq_refl).
    destruct (apply_diffs book (bids m) (asks m) (update_id m)) as [b' c]; simpl in *.
    subst c; simpl. rewrite Hwin; simpl. rewrite lookup_insert_eq; simpl.
    rewrite popleft_while_longer_last_n.
    destruct (_ >? _)%Z; simpl; eexists _, _; (split; [done|]); simpl;
      rewrite insert_insert_eq, !lookup_insert_eq; eauto 10.
  - eexists _, _; (split; [done|]); simpl. rewrite lookup_insert_eq. eauto 10.
Qed.

Lemma worker_passes_window (msgs : list OrderBookMessage) :
  ∀ (envs : list Env) (l : WorkerLocals) (w : World)
    (rest window : list OrderBookMessage),
  length envs = length msgs →
  (∀ env p, env ∈ envs → cancelled_at env p = false) →
  (∀ book m, m ∈ msgs → type m = DIFF →
     (apply_diffs book (bids m) (asks m) (update_id m)).2 = Returns) →
  queues w !! wk_message_queue l = Some (msgs ++ rest) →
  deques w !! wk_past_diffs_window l = Some window →
  is_Some (books w !! wk_order_book l) →
  length window ≤ PAST_DIFF_WINDOW_SIZE →
  let s := passes _track_single_book envs (l, w) in
  wk_past_diffs_window s.1 = wk_past_diffs_window l
  ∧ queues s.2 !! wk_message_queue l = Some rest
  ∧ deques s.2 !! wk_past_diffs_window l =
      Some (last_n PAST_DIFF_WINDOW_SIZE (window ++ filter (λ m, type m = DIFF) msgs)).
Proof.
  induction msgs as [|m msgs IH]; intros envs l w rest window Hlen Hc Hret Hq Hwin Hb Hbound.
  - destruct envs; [|done]. simpl. rewrite app_nil_r, last_n_short by done. done.
  - destruct envs as [|env envs]; [done|]. simpl in Hlen.
    destruct Hb as [book Hbook].
    destruct (worker_pass_window env l w m (msgs ++ rest) window book)
      as (l' & w' & Hpass & Hq' & Hd' & Hb' & Hqs & Hbs & Hds); auto.
    { intros p. apply Hc. by left. }
    { intros Hty. apply Hret; [by left|done]. }
    simpl. rewrite Hpass.
    specialize (IH envs l' w' rest
      (if decide (type m = DIFF)
       then last_n PAST_DIFF_WINDOW_SIZE (window ++ [m]) else window)).
    rewrite Hq', Hd', Hb' in IH.
    destruct IH as (IH1 & IH2 & IH3); auto.
    { intros env' p Hin. apply Hc. by right. }
    { intros book' m' Hin. apply Hret. by right. }
    { case_decide; [apply length_last_n|done]. }
    split; [done|]. split; [done|]. rewrite IH3. f_equal.
    rewrite filter_cons. case_decide.
    + by rewrite last_n_app_last_n, <- app_assoc.
    + done.
Qed.

(** C6. The buffer of a worker never exceeds 32 entries, whatever the
    passes do (any message, any failure, any cancellation): it starts
    empty, and a pass leaves a buffer of at most 32 entries as one.
    After the worker has handled the messages [msgs], every diff among
    them having been applied without an exception, the buffer holds the
    last 32 of the diffs it held or handled, oldest first. *)
Theorem past_diffs_window_keeps_last_32 :
  PAST_DIFF_WINDOW_SIZE = 32
  ∧ (∀ tp env w l s, _track_single_book_prologue tp env ((), w) = Val l s →
     deques s.2 !! wk_past_diffs_window l = Some [])
  ∧ (∀ envs s, window_bounded s → window_bounded (passes _track_single_book envs s))
  ∧ (∀ msgs envs l w rest window,
       length envs = length msgs →
       (∀ env p, env ∈ envs → cancelled_at env p = false) →
       (∀ book m, m ∈ msgs → type m = DIFF →
          (apply_diffs book (bids m) (asks m) (update_id m)).2 = Returns) →
       queues w !! wk_message_queue l = Some (msgs ++ rest) →
       deques w !! wk_past_diffs_window l = Some window →
       is_Some (books w !! wk_order_book l) →
       length window ≤ PAST_DIFF_WINDOW_SIZE →
       deques (passes _track_single_book envs (l, w)).2 !! wk_past_diffs_window l =
         Some (last_n 32 (window ++ filter (λ m, type m = DIFF) msgs))).
Proof.
  split; [reflexivity|]. split; [|split].
  - intros tp env w l s. unfold _track_single_book_prologue.
    destruct w; simpl. unfold_pass.
    destruct (_tracking_message_queues0 !! tp); simpl; [|done].
    destruct (_order_books0 !! tp); simpl; [|done].
    intros [= <- <-]. simpl. by rewrite lookup_insert_eq.
  - induction envs as [|env envs IH]; intros [l w] Hb; simpl; [done|].
    assert (window_bounded (locals_of (_track_single_book env (l, w)),
                            world_of (_track_single_book env (l, w)))) as Hb'.
    { destruct (worker_pass_deques env l w) as [Hd Hw].
      destruct Hb as (window & Hwin & Hlen). simpl in *.
      unfold window_bounded; simpl. rewrite Hd.
      destruct Hw as [->|(window' & m & Hwin' & ->)]; [by eauto|].
      rewrite lookup_insert_eq. eexists; split; [done|].
      rewrite popleft_while_longer_last_n. apply length_last_n. }
    destruct (_track_single_book env (l, w)) as [[] [l' w']|e [l' w']|[l' w']];
      simpl in *; auto.
  - intros msgs envs l w rest window Hlen Hc Hret Hq Hwin Hb Hbound.
    by destruct (worker_passes_window msgs envs l w rest window) as (_ & _ & ->).
Qed.

(** ** [stop] *)

Lemma cancel_idemp (t : Task) : cancel (cancel t) = cancel t.
Proof. by destruct t as [c []]. Qed.


Lemma lookup_cancel_all (hs : list ref) :
  ∀ (ts : gmap ref Task) (t : ref),
  cancel_all ts hs !! t = if decide (t ∈ hs) then cancel <$> ts !! t else ts !! t.
Proof.
  unfold cancel_all.
  induction hs as [|h hs IH]; intros ts t.
  - rewrite decide_False by apply not_elem_of_nil. done.
  - change (foldl (λ m h0, alter cancel h0 m) ts (h :: hs))
      with (foldl (λ m h0, alter cancel h0 m) (alter cancel h ts) hs).
    rewrite IH. destruct (decide (h = t)) as [->|Hne].
    + rewrite lookup_alter_eq. rewrite (decide_True (P := t ∈ t :: hs)) by left.
      destruct (decide (t ∈ hs)); [|done].
      destruct (ts !! t); simpl; [|done]. by rewrite cancel_idemp.
    + rewrite lookup_alter_ne by done.
      destruct (decide (t ∈ hs)) as [Hi|Hi], (decide (t ∈ h :: hs)) as [Hj|Hj];
        try done.
      * exfalso. apply Hj. by right.
      * apply elem_of_cons in Hj as [?|?]; [congruence|done].
Qed.

Lemma stop_tasks (w : World) : tasks (stop w) = cancel_all (tasks w) (handles_of_stop w).
Proof.
  destruct w. unfold stop, cancel_and_clear, handles_of_stop, cancel_all; simpl.
  destruct _emit_trade_event_task0, _order_book_diff_listener_task0,
    _order_book_snapshot_listener_task0, _refresh_tracking_task0,
    _order_book_diff_router_task0, _order_book_snapshot_router_task0; reflexivity.
Qed.

Lemma stop_without_handles (w : World) :
  handles_of_stop w = [] → stop w = w.
Proof.
  destruct w. unfold stop, cancel_and_clear, handles_of_stop; simpl.
  destruct _emit_trade_event_task0, _order_book_diff_listener_task0,
    _order_book_snapshot_listener_task0, _refresh_tracking_task0,
    _order_book_diff_router_task0, _order_book_snapshot_router_task0; done.
Qed.

Lemma stop_frame (w : World) :
  let w' := stop w in
  handles_of_stop w' = []
  ∧ _emit_trade_event_task w' = None
  ∧ _order_book_diff_listener_task w' = None
  ∧ _order_book_snapshot_listener_task w' = None
  ∧ _refresh_tracking_task w' = None
  ∧ _order_book_diff_router_task w' = None
  ∧ _order_book_snapshot_router_task w' = None
  ∧ _order_book_trade_listener_task w' = _order_book_trade_listener_task w
  ∧ _tracking_tasks w' = _tracking_tasks w
  ∧ _order_books w' = _order_books w
  ∧ _tracking_message_queues w' = _tracking_message_queues w
  ∧ _past_diffs_windows w' = _past_diffs_windows w
  ∧ books w' = books w
  ∧ queues w' = queues w
  ∧ deques w' = deques w
  ∧ effects w' = effects w.
Proof.
  destruct w; cbv zeta.
  destruct _emit_trade_event_task0, _order_book_diff_listener_task0,
    _order_book_snapshot_listener_task0, _refresh_tracking_task0,
    _order_book_diff_router_task0, _order_book_snapshot_router_task0;
    repeat (split; [reflexivity|]); reflexivity.
Qed.

(** C2 (as amended). [stop] requests the cancellation of the tasks held
    in the six attributes it tests (trade emitter, diff and snapshot
    listeners, refresher, diff and snapshot routers) and clears these
    attributes: such a task has its cancellation requested when it is
    pending and is left as it is when it is already cancelled or
    finished.  The workers of [_tracking_tasks] are left exactly as
    they were, and so are the dictionaries and the objects of the
    store.  Cancelling a cancelled or finished task changes nothing,
    and a second [stop] changes nothing. *)
Theorem stop_cancels_the_named_tasks (w : World) :
  let w' := stop w in
  (∀ t task, t ∈ handles_of_stop w → tasks w !! t = Some task →
     tasks w' !! t = Some (if decide (state task = Pending)
                           then {| coro := coro task; state := Cancelling |}
                           else task))
  ∧ handles_of_stop w' = []
  ∧ (∀ tp t, _tracking_tasks w !! tp = Some t → t ∉ handles_of_stop w →
       tasks w' !! t = tasks w !! t)
  ∧ _tracking_tasks w' = _tracking_tasks w
  ∧ _order_books w' = _order_books w
  ∧ books w' = books w
  ∧ queues w' = queues w
  ∧ deques w' = deques w
  ∧ (∀ task, state task ≠ Pending → cancel task = task)
  ∧ stop w' = w'.
Proof.
  intros w'. subst w'. pose proof (stop_frame w) as Hf. simpl in Hf.
  destruct Hf as (Hh & _ & _ & _ & _ & _ & _ & _ & Htt & Hob & _ & _ & Hb & Hq & Hd & _).
  split; [|split; [done|split]].
  - intros t task Hin Ht. rewrite stop_tasks, lookup_cancel_all, decide_True by done.
    rewrite Ht. by destruct task as [c []].
  - intros tp t _ Hnin. by rewrite stop_tasks, lookup_cancel_all, decide_False by done.
  - repeat (split; [done|]). split.
    + intros [c []]; simpl; done.
    + by apply stop_without_handles.
Qed.

(** ** The refresher *)

Lemma elem_of_tracking_trading_pairs (w : World) (tp : string) :
  tp ∈ tracking_trading_pairs w ↔
  ∃ t, _tracking_tasks w !! tp = Some t ∧ task_done w t = false.
Proof.
  unfold tracking_trading_pairs. rewrite elem_of_dom. split.
  - intros [t Ht]. apply map_lookup_filter_Some in Ht as [Ht Hd]. eauto.
  - intros (t & Ht & Hd). exists t. by apply map_lookup_filter_Some.
Qed.

(** The effect of the first loop on a list of pairs that all have an
    entry: each pair ends with a book, an empty queue and a new task,
    and nothing that existed is touched. *)
Lemma start_tracking_all (env : Env) (avail : gmap string OrderBookTrackerEntry)
    (tps : list string) :
  ∀ w, (∀ tp, tp ∈ tps → is_Some (avail !! tp)) →
  ∃ w1,
    for_each tps (start_tracking avail) env ((), w) = Val () ((), w1)
    ∧ (∀ tp entry, tp ∈ tps → avail !! tp = Some entry →
         ∃ b q t,
           _order_books w1 !! tp = Some b ∧ books w1 !! b = Some (order_book entry)
           ∧ _tracking_message_queues w1 !! tp = Some q ∧ queues w1 !! q = Some []
           ∧ _tracking_tasks w1 !! tp = Some t
           ∧ tasks w1 !! t = Some {| coro := TrackSingleBook tp None; state := Pending |}
           ∧ tasks w !! t = None)
    ∧ (∀ tp, tp ∉ tps →
         _order_books w1 !! tp = _order_books w !! tp
         ∧ _tracking_message_queues w1 !! tp = _tracking_message_queues w !! tp
         ∧ _tracking_tasks w1 !! tp = _tracking_tasks w !! tp)
    ∧ (∀ r x, tasks w !! r = Some x → tasks w1 !! r = Some x)
    ∧ (∀ r x, books w !! r = Some x → books w1 !! r = Some x)
    ∧ (∀ r x, queues w !! r = Some x → queues w1 !! r = Some x)
    ∧ deques w1 = deques w
    ∧ _past_diffs_windows w1 = _past_diffs_windows w.
Proof.
  induction tps as [|tp tps IH]; intros w Hav.
  - exists w. split; [done|]. split; [intros ? ? Hin; by apply elem_of_nil in Hin|].
    repeat split; done.
  - destruct (Hav tp) as [entry Hentry]; [by left|].
    pose (b := fresh (dom (books w))).
    pose (q := fresh (dom (queues w))).
    pose (t := fresh (dom (tasks w))).
    assert (books w !! b = None) as Hb by (apply not_elem_of_dom, is_fresh).
    assert (queues w !! q = None) as Hq by (apply not_elem_of_dom, is_fresh).
    assert (tasks w !! t = None) as Ht by (apply not_elem_of_dom, is_fresh).
    pose (wk := emit (LogInfo "Started order book tracking for %s." [ArgStr tp])
      (upd_tracking_tasks <[tp := t]>
        (upd_tasks <[t := {| coro := TrackSingleBook tp None; state := Pending |}]>
          (upd_tracking_message_queues <[tp := q]>
            (upd_queues <[q := []]>
              (upd_order_books <[tp := b]>
                (upd_books <[b := order_book entry]> w))))))).
    assert (start_tracking avail tp env ((), w) = Val () ((), wk)) as Hstep.
    { unfold start_tracking, safe_ensure_future. subst wk b q t.
      destruct w; simpl. unfold_pass. rewrite Hentry. done. }
    destruct (IH wk) as (w1 & Hrun & Hnew & Hold & Hts & Hbs & Hqs & Hds & Hpw).
    { intros tp' Hin. apply Hav. by right. }
    exists w1. split; [simpl; unfold bind; by rewrite Hstep|].
    assert (_order_books wk = <[tp := b]> (_order_books w)) as Eob by (by destruct w).
    assert (_tracking_message_queues wk = <[tp := q]> (_tracking_message_queues w)) as Eqm
      by (by destruct w).
    assert (_tracking_tasks wk = <[tp := t]> (_tracking_tasks w)) as Etm by (by destruct w).
    assert (books wk = <[b := order_book entry]> (books w)) as Ebs by (by destruct w).
    assert (queues wk = <[q := []]> (queues w)) as Eqs by (by destruct w).
    assert (tasks wk = <[t := {| coro := TrackSingleBook tp None; state := Pending |}]> (tasks w))
      as Ets by (by destruct w).
    assert (deques wk = deques w) as Eds by (by destruct w).
    assert (_past_diffs_windows wk = _past_diffs_windows w) as Epw by (by destruct w).
    split; [|split; [|split; [|split; [|split; [|split]]]]].
    + intros tp' entry' Hin Hentry'.
      destruct (decide (tp' ∈ tps)) as [Hin'|Hnin].
      { destruct (Hnew tp' entry' Hin' Hentry')
          as (b' & q' & t' & ? & ? & ? & ? & ? & ? & Hfr).
        exists b', q', t'. repeat (split; [done|]).
        rewrite Ets in Hfr. by apply lookup_insert_None in Hfr as [? ?]. }
      assert (tp' = tp) as -> by (apply elem_of_cons in Hin as [?|?]; done).
      assert (entry' = entry) as -> by congruence.
      destruct (Hold tp Hnin) as (Ho1 & Ho2 & Ho3).
      exists b, q, t. rewrite Ho1, Ho2, Ho3, Eob, Eqm, Etm, !lookup_insert_eq.
      repeat split; try done.
      * apply Hbs. by rewrite Ebs, lookup_insert_eq.
      * apply Hqs. by rewrite Eqs, lookup_insert_eq.
      * apply Hts. by rewrite Ets, lookup_insert_eq.
    + intros tp' Hnin. apply not_elem_of_cons in Hnin as [Hne Hnin].
      destruct (Hold tp' Hnin) as (Ho1 & Ho2 & Ho3).
      rewrite Ho1, Ho2, Ho3, Eob, Eqm, Etm, !lookup_insert_ne by done. done.
    + intros r x Hr. apply Hts. rewrite Ets, lookup_insert_ne; [done|congruence].
    + intros r x Hr. apply Hbs. rewrite Ebs, lookup_insert_ne; [done|congruence].
    + intros r x Hr. apply Hqs. rewrite Eqs, lookup_insert_ne; [done|congruence].
    + congruence.
    + congruence.
Qed.

Lemma fmap_cancel_idemp (x : option Task) : cancel <$> (cancel <$> x) = cancel <$> x.
Proof. destruct x; simpl; [|done]. by rewrite cancel_idemp. Qed.

(** The effect of the second loop on a list of distinct pairs that are
    keys of the three dictionaries: their tasks are cancelled, their
    keys leave the three dictionaries, nothing else changes. *)
Lemma stop_tracking_all (env : Env) (tps : list string) :
  ∀ w, NoDup tps →
  (∀ tp, tp ∈ tps →
     is_Some (_tracking_tasks w !! tp) ∧ is_Some (_order_books w !! tp)
     ∧ is_Some (_tracking_message_queues w !! tp)) →
  ∃ w2,
    for_each tps stop_tracking env ((), w) = Val () ((), w2)
    ∧ (∀ tp, tp ∈ tps →
         _tracking_tasks w2 !! tp = None ∧ _order_books w2 !! tp = None
         ∧ _tracking_message_queues w2 !! tp = None)
    ∧ (∀ tp, tp ∉ tps →
         _tracking_tasks w2 !! tp = _tracking_tasks w !! tp
         ∧ _order_books w2 !! tp = _order_books w !! tp
         ∧ _tracking_message_queues w2 !! tp = _tracking_message_queues w !! tp)
    ∧ (∀ r, tasks w2 !! r = tasks w !! r ∨ tasks w2 !! r = cancel <$> tasks w !! r)
    ∧ (∀ tp t, tp ∈ tps → _tracking_tasks w !! tp = Some t →
         tasks w2 !! t = cancel <$> tasks w !! t)
    ∧ (∀ r, (∀ tp t, tp ∈ tps → _tracking_tasks w !! tp = Some t → t ≠ r) →
         tasks w2 !! r = tasks w !! r)
    ∧ books w2 = books w
    ∧ queues w2 = queues w
    ∧ deques w2 = deques w
    ∧ _past_diffs_windows w2 = _past_diffs_windows w.
Proof.
  induction tps as [|tp tps IH]; intros w Hnd Hpres.
  - exists w. split; [done|]. split; [intros ? Hin; by apply elem_of_nil in Hin|].
    split; [done|]. split; [by left|].
    split; [intros ? ? Hin; by apply elem_of_nil in Hin|]. done.
  - apply NoDup_cons in Hnd as [Hnin Hnd].
    destruct (Hpres tp) as ([t Ht] & [b Hb] & [q Hq]); [by left|].
    pose (wk := emit (LogInfo "Stopped order book tracking for %s." [ArgStr tp])
      (upd_tracking_message_queues (delete tp)
        (upd_order_books (delete tp)
          (upd_tracking_tasks (delete tp)
            (upd_tasks (alter cancel t) w))))).
    assert (stop_tracking tp env ((), w) = Val () ((), wk)) as Hstep.
    { unfold stop_tracking, del. subst wk.
      destruct w; simpl in *. unfold_pass. rewrite Ht; simpl. rewrite Ht; simpl.
      rewrite Hb; simpl. rewrite Hq; simpl. done. }
    assert (_order_books wk = delete tp (_order_books w)) as Eob by (by destruct w).
    assert (_tracking_message_queues wk = delete tp (_tracking_message_queues w)) as Eqm
      by (by destruct w).
    assert (_tracking_tasks wk = delete tp (_tracking_tasks w)) as Etm by (by destruct w).
    assert (tasks wk = alter cancel t (tasks w)) as Ets by (by destruct w).
    assert (books wk = books w) as Ebs by (by destruct w).
    assert (queues wk = queues w) as Eqs by (by destruct w).
    assert (deques wk = deques w) as Eds by (by destruct w).
    assert (_past_diffs_windows wk = _past_diffs_windows w) as Epw by (by destruct w).
    destruct (IH wk Hnd)
      as (w2 & Hrun & Hdel & Hold & Hts & Hcs & Hot & Hbs & Hqs & Hds & Hpw).
    { intros tp' Hin. assert (tp ≠ tp') as Hne by (intros ->; done).
      rewrite Eob, Eqm, Etm, !lookup_delete_ne by done. apply Hpres. by right. }
    exists w2. split; [simpl; unfold bind; by rewrite Hstep|].
    assert (∀ r, tasks wk !! r = if decide (t = r) then cancel <$> tasks w !! r
                               else tasks w !! r) as Hwk.
    { intros r. rewrite Ets. case_decide as Hr.
      - subst r. apply lookup_alter_eq.
      - by apply lookup_alter_ne. }
    split; [|split; [|split; [|split; [|split]]]].
    + intros tp' Hin. destruct (decide (tp' ∈ tps)) as [Hin'|Hnin']; [by apply Hdel|].
      assert (tp' = tp) as -> by (apply elem_of_cons in Hin as [?|?]; done).
      destruct (Hold tp Hnin) as (-> & -> & ->).
      by rewrite Eob, Eqm, Etm, !lookup_delete_eq.
    + intros tp' Hnin'. apply not_elem_of_cons in Hnin' as [Hne Hnin'].
      destruct (Hold tp' Hnin') as (-> & -> & ->).
      by rewrite Eob, Eqm, Etm, !lookup_delete_ne.
    + intros r. destruct (Hts r) as [->| ->]; rewrite Hwk; case_decide;
        rewrite ?fmap_cancel_idemp; auto.
    + intros tp' t' Hin Ht'. apply elem_of_cons in Hin as [->|Hin].
      * assert (t' = t) as -> by congruence.
        destruct (Hts t) as [->| ->]; rewrite Hwk, decide_True by done;
          rewrite ?fmap_cancel_idemp; done.
      * assert (tp ≠ tp') as Hne by (intros ->; done).
        rewrite (Hcs tp' t' Hin) by (by rewrite Etm, lookup_delete_ne).
        rewrite Hwk. case_decide; rewrite ?fmap_cancel_idemp; done.
    + intros r Hr. rewrite Hot.
      * rewrite Hwk, decide_False; [done|]. apply (Hr tp); [by left|done].
      * intros tp' t' Hin Ht'. assert (tp ≠ tp') as Hne by (intros ->; done).
        rewrite Etm, lookup_delete_ne in Ht' by done. apply (Hr tp'); [by right|done].
    + repeat split; congruence.
Qed.



Lemma init_consistent (trading_pairs : option (list string)) :
  consistent (__init__ trading_pairs).
Proof.
  unfold consistent, __init__; simpl. rewrite !dom_empty_L.
  repeat split; try done; intros k r Hk; by rewrite lookup_empty in Hk.
Qed.

End properties.

(** * The properties on the sample tracker *)

Section samples.
Import Sample.
Local Existing Instance collaborators.
Local Existing Instance methods.
Local Open Scope Z_scope.

(** Settles a decidable proposition on closed terms by evaluation. *)
Ltac by_evaluation := apply (bool_decide_unpack _); vm_compute; exact I.

(** C1, the claim as written fails. The book of ETHUSDT is at
    [snapshot_uid] 5 and a diff with [update_id] 5 arrives: it is not
    newer than the book, yet the router appends it to the queue of the
    pair and counts it as accepted; the rejected counter stays at 0. *)
Lemma diff_at_snapshot_uid_is_forwarded :
  _tracking_message_queues tracking_eth !! "ETHUSDT" = Some 0%nat
  ∧ _order_books tracking_eth !! "ETHUSDT" = Some 0%nat
  ∧ books tracking_eth !! 0%nat = Some (book_at 5)
  ∧ queues tracking_eth !! 0%nat = Some []
  ∧ update_id (message DIFF "ETHUSDT" 5) ≤ snapshot_uid (book_at 5)
  ∧ _order_book_diff_router quiet
      (counters_init quiet, set_diff_stream [message DIFF "ETHUSDT" 5] tracking_eth)
    = Val () ({| last_message_timestamp := 10;
                 messages_accepted := 1;
                 messages_rejected := 0 |},
              upd_queues <[0%nat := [message DIFF "ETHUSDT" 5]]> tracking_eth).
Proof.
  repeat split; reflexivity || (vm_compute; discriminate).
Qed.

Lemma diff_router_staleness_witness :
  cancelled_at quiet AwaitGet = false
  ∧ _order_book_diff_stream (set_diff_stream [message DIFF "ETHUSDT" 3] tracking_eth)
    = [message DIFF "ETHUSDT" 3]
  ∧ update_id (message DIFF "ETHUSDT" 3) < snapshot_uid (book_at 5)
  ∧ _order_book_diff_router quiet
      (counters_init quiet, set_diff_stream [message DIFF "ETHUSDT" 3] tracking_eth)
    = Val () ({| last_message_timestamp := 10;
                 messages_accepted := 0;
                 messages_rejected := 1 |}, tracking_eth).
Proof.
  do 3 (split; [reflexivity|]).
  exact (proj1 (proj1 (diff_router_staleness quiet (counters_init quiet)
           (set_diff_stream [message DIFF "ETHUSDT" 3] tracking_eth)
           (message DIFF "ETHUSDT" 3) [] 0%nat 0%nat (book_at 5) []
           eq_refl eq_refl eq_refl eq_refl eq_refl eq_refl) eq_refl)).
Defined.

(** C2, the claim as written fails. A worker is tracked under ETHUSDT
    with a diff waiting in its queue.  After [stop] the trade emitter
    has its cancellation requested, but the worker is still pending, and
    its next resumption applies the diff to the book. *)
Lemma worker_survives_stop :
  _tracking_tasks running_eth_in_flight !! "ETHUSDT" = Some 0%nat
  ∧ state <$> tasks running_eth_in_flight !! 0%nat = Some Pending
  ∧ state <$> tasks (stop running_eth_in_flight) !! 1%nat = Some Cancelling
  ∧ state <$> tasks (stop running_eth_in_flight) !! 0%nat = Some Pending
  ∧ uid <$> books (stop running_eth_in_flight) !! 0%nat = Some 5
  ∧ uid <$> books (resume quiet 0%nat (stop running_eth_in_flight)) !! 0%nat = Some 7.
Proof. repeat split; vm_compute; reflexivity. Qed.

Lemma stop_cancels_the_named_tasks_witness :
  handles_of_stop running_eth_in_flight = [1%nat]
  ∧ state <$> tasks (stop running_eth_in_flight) !! 1%nat = Some Cancelling
  ∧ tasks (stop running_eth_in_flight) !! 0%nat = tasks running_eth_in_flight !! 0%nat
  ∧ stop (stop running_eth_in_flight) = stop running_eth_in_flight
  ∧ state <$> tasks (finish 1%nat running_eth_in_flight) !! 1%nat = Some Finished
  ∧ state <$> tasks (stop (finish 1%nat running_eth_in_flight)) !! 1%nat = Some Finished.
Proof.
  pose proof (stop_cancels_the_named_tasks running_eth_in_flight) as Hstop.
  cbv zeta in Hstop.
  destruct Hstop as (Hc & _ & Ho & _ & _ & _ & _ & _ & _ & Hid).
  pose proof (stop_cancels_the_named_tasks (finish 1%nat running_eth_in_flight)) as Hfin.
  cbv zeta in Hfin. destruct Hfin as (Hf & _).
  split; [reflexivity|]. split; [|split; [|split; [exact Hid|split; [reflexivity|]]]].
  - assert (1%nat ∈ handles_of_stop running_eth_in_flight) as Hin by by_evaluation.
    rewrite (Hc 1%nat _ Hin eq_refl). reflexivity.
  - apply (Ho "ETHUSDT"); [reflexivity|by_evaluation].
  - assert (1%nat ∈ handles_of_stop (finish 1%nat running_eth_in_flight)) as Hin
      by by_evaluation.
    rewrite (Hf 1%nat _ Hin eq_refl). reflexivity.
Defined.



Lemma trade_event_is_always_sell_witness :
  content (trade_message "ETHUSDT" 1) !! "trade_type" = Some 1
  ∧ equals_sell_value 1 = false
  ∧ trades <$> books (world_of (_emit_trade_event_loop quiet
        (counters_init quiet,
         set_trade_stream [trade_message "ETHUSDT" 1] tracking_eth))) !! 0%nat
    = Some [SELL].
Proof.
  do 2 (split; [reflexivity|]).
  rewrite (proj2 (trade_event_is_always_sell quiet (counters_init quiet)
    (set_trade_stream [trade_message "ETHUSDT" 1] tracking_eth)
    (trade_message "ETHUSDT" 1) [] 0%nat (book_at 5) 100 3 1 100 3
    eq_refl eq_refl eq_refl eq_refl eq_refl eq_refl eq_refl eq_refl eq_refl)).
  reflexivity.
Defined.

Lemma worker_snapshot_replays_buffer_witness :
  queues snapshot_pending !! 0%nat = Some [message SNAPSHOT "ETHUSDT" 6]
  ∧ deques snapshot_pending !! 0%nat = Some (diffs_from 5 4)
  ∧ books (world_of (_track_single_book quiet (eth_worker, snapshot_pending))) !! 0%nat
    = Some {| uid := 8; applied := [6; 7; 8]; trades := [] |}
  ∧ deques (world_of (_track_single_book quiet (eth_worker, snapshot_pending)))
    = deques snapshot_pending.
Proof.
  do 2 (split; [reflexivity|]).
  destruct (worker_snapshot_replays_buffer quiet eth_worker snapshot_pending
              (message SNAPSHOT "ETHUSDT" 6) [] (diffs_from 5 4) (book_at 5)
              eq_refl eq_refl eq_refl eq_refl eq_refl) as (Hb & Hd & _).
  split; [|exact Hd]. rewrite Hb. reflexivity.
Defined.

Lemma past_diffs_window_keeps_last_32_witness :
  queues diffs_pending !! 0%nat = Some (diffs_from 1 33)
  ∧ deques diffs_pending !! 0%nat = Some []
  ∧ deques (passes _track_single_book (replicate 33 quiet) (eth_worker, diffs_pending)).2
      !! 0%nat
    = Some (diffs_from 2 32).
Proof.
  do 2 (split; [reflexivity|]).
  destruct past_diffs_window_keeps_last_32 as (_ & _ & _ & Hlast).
  etrans.
  - apply (Hlast (diffs_from 1 33) (replicate 33 quiet) eth_worker diffs_pending [] []).
    + reflexivity.
    + intros env p [-> _]%elem_of_replicate. reflexivity.
    + intros b m _ _. reflexivity.
    + reflexivity.
    + reflexivity.
    + eexists. reflexivity.
    + vm_compute. lia.
  - vm_compute. reflexivity.
Defined.

Lemma ready_iff_witness :
  _trading_pairs one_of_two = Some ["ETHUSDT"; "BTCUSDT"]
  ∧ size (_order_books one_of_two) = 1%nat
  ∧ ready one_of_two = false
  ∧ size (_order_books two_of_two) = 2%nat
  ∧ ready two_of_two = true
  ∧ ready tracking_eth = true
  ∧ ready (__init__ (Some ["ETHUSDT"])) = false.
Proof.
  do 2 (split; [reflexivity|]). split; [|split; [reflexivity|split; [|split]]].
  - destruct (ready one_of_two) eqn:E; [|reflexivity].
    apply (proj1 (ready_iff one_of_two) ["ETHUSDT"; "BTCUSDT"] eq_refl) in E.
    vm_compute in E. lia.
  - apply (proj1 (ready_iff two_of_two) ["ETHUSDT"; "BTCUSDT"] eq_refl).
    vm_compute. lia.
  - apply (proj2 (proj2 (proj2 (ready_iff tracking_eth)))); vm_compute;
      [left; reflexivity|lia].
  - apply (proj1 (proj2 (proj2 (ready_iff (__init__ (Some ["ETHUSDT"])))))). reflexivity.
Defined.

Lemma snapshot_router_forwards_witness :
  update_id (message SNAPSHOT "ETHUSDT" 1) < snapshot_uid (book_at 5)
  ∧ _order_book_snapshot_router quiet
      ((), set_snapshot_stream [message SNAPSHOT "ETHUSDT" 1] tracking_eth)
    = Val () ((), upd_queues <[0%nat := [message SNAPSHOT "ETHUSDT" 1]]> tracking_eth).
Proof.
  split; [reflexivity|].
  exact (proj1 (proj1 (snapshot_router_forwards quiet
    (set_snapshot_stream [message SNAPSHOT "ETHUSDT" 1] tracking_eth)
    (message SNAPSHOT "ETHUSDT" 1) [] eq_refl eq_refl) 0%nat [] eq_refl eq_refl)).
Defined.

Lemma cancellation_is_reraised_witness :
  cancelled_at cancelling AwaitGet = true
  ∧ _track_single_book cancelling (eth_worker, running_eth_in_flight)
    = Exc CancelledError (eth_worker, running_eth_in_flight)
  ∧ state <$> tasks cancel_requested !! 0%nat = Some Cancelling
  ∧ state <$> tasks (resume quiet 0%nat cancel_requested) !! 0%nat = Some Finished
  ∧ effects (resume quiet 0%nat cancel_requested) = effects cancel_requested
  ∧ books (resume quiet 0%nat cancel_requested) = books cancel_requested.
Proof.
  destruct cancellation_is_reraised as (_ & _ & _ & _ & _ & Hget & _ & Hres).
  split; [reflexivity|]. split.
  { apply (Hget cancelling eq_refl). }
  split; [reflexivity|].
  destruct (Hres quiet 0%nat cancel_requested
    {| coro := TrackSingleBook "ETHUSDT" (Some eth_worker); state := Cancelling |}
    eq_refl eq_refl) as (Hfin & Heff & Hbooks & _); [discriminate|].
  repeat split; assumption.
Defined.

Lemma worker_drops_other_types_witness :
  queues trade_pending !! 0%nat = Some [trade_message "ETHUSDT" 2]
  ∧ type (trade_message "ETHUSDT" 2) = TRADE
  ∧ _track_single_book quiet (eth_worker, trade_pending) = Val () (eth_worker, running_eth)
  ∧ books (world_of (_track_single_book quiet (eth_worker, trade_pending)))
    = books trade_pending.
Proof.
  do 2 (split; [reflexivity|]).
  destruct (worker_drops_other_types quiet eth_worker trade_pending
              (trade_message "ETHUSDT" 2) [] eq_refl eq_refl)
    as (Hrun & Hbooks & _); [discriminate|discriminate|].
  split; [exact Hrun|exact Hbooks].
Defined.

End samples.

(** * Further properties of the coroutines and of the facade *)

Section coverage.
Context {collaborators : Collaborators} {methods : OrderBookMethods}.

(** As [unfold_pass] of the previous section. *)
Ltac run_pass :=
  cbv beta iota delta
    [try_except bind ret raise park ask gets modify get_locals
     set_locals log sleep stream_get queue_get queue_put call_book
     deref subscript add_accepted add_rejected reset_counters
     set_last_message_timestamp set_diff_stats except_clauses
     except_clauses_network world_of locals_of fst snd]; simpl.

(** ** The diff router on the messages it does not forward *)

(** X1. A diff for a pair without a registered queue is consumed and
    counted as rejected; nothing else changes and nothing is logged. *)
Theorem diff_router_rejects_unknown_pair (env : Env) (c : Counters) (w : World)
    (m : OrderBookMessage) (rest : list OrderBookMessage) :
  cancelled_at env AwaitGet = false →
  _order_book_diff_stream w = m :: rest →
  _tracking_message_queues w !! trading_pair m = None →
  let r := _order_book_diff_router env (c, w) in
  r = Val () ({| last_message_timestamp := last_message_timestamp c;
                 messages_accepted := messages_accepted c;
                 messages_rejected := messages_rejected c + 1 |},
              set_diff_stream rest w)
  ∧ queues (world_of r) = queues w
  ∧ books (world_of r) = books w
  ∧ effects (world_of r) = effects w.
Proof.
  intros Hget Hs Hq r. subst r.
  unfold _order_book_diff_router, _order_book_diff_router_body.
  destruct w; simpl in *. run_pass. rewrite Hget, Hs; simpl. by rewrite Hq.
Qed.

(** X2. A diff for a pair that has a queue but no entry in
    [_order_books] makes the subscript raise [KeyError]: the message is
    consumed without being forwarded or counted, the error is logged and
    the router sleeps five seconds before its next pass (a cancellation
    delivered during that sleep ends it). *)
Theorem diff_router_recovers_from_missing_book (env : Env) (c : Counters) (w : World)
    (m : OrderBookMessage) (rest : list OrderBookMessage) (q : ref) :
  cancelled_at env AwaitGet = false →
  _order_book_diff_stream w = m :: rest →
  _tracking_message_queues w !! trading_pair m = Some q →
  _order_books w !! trading_pair m = None →
  let w' := emit (Sleep 5)
              (emit (LogError "Unknown error. Retrying after 5 seconds.")
                 (set_diff_stream rest w)) in
  _order_book_diff_router env (c, w) =
    (if cancelled_at env AwaitSleep then Exc CancelledError (c, w') else Val () (c, w'))
  ∧ queues w' = queues w
  ∧ books w' = books w.
Proof.
  intros Hget Hs Hq Hb w'. subst w'.
  unfold _order_book_diff_router, _order_book_diff_router_body.
  destruct w; simpl in *. run_pass. rewrite Hget, Hs; simpl. rewrite Hq; simpl.
  rewrite Hb; simpl. by destruct (cancelled_at env AwaitSleep).
Qed.

(** X3. Whatever its input, a pass of the diff router leaves the books,
    the buffers, the tasks and the four dictionaries as they were, and
    changes at most one queue, by appending the head of the diff stream
    to the queue registered for its pair. *)
Theorem diff_router_frame (env : Env) (c : Counters) (w : World) :
  let r := _order_book_diff_router env (c, w) in
  books (world_of r) = books w
  ∧ deques (world_of r) = deques w
  ∧ tasks (world_of r) = tasks w
  ∧ dictionaries_of (world_of r) = dictionaries_of w
  ∧ (queues (world_of r) = queues w
     ∨ ∃ m rest q items,
         _order_book_diff_stream w = m :: rest
         ∧ _tracking_message_queues w !! trading_pair m = Some q
         ∧ queues w !! q = Some items
         ∧ queues (world_of r) = <[q := items ++ [m]]> (queues w)).
Proof.
  intros r. subst r. unfold _order_book_diff_router, _order_book_diff_router_body.
  destruct w; simpl. run_pass.
  destruct (cancelled_at env AwaitGet); simpl; [by auto 10|].
  destruct _order_book_diff_stream0 as [|m rest]; simpl; [by auto 10|].
  destruct (_tracking_message_queues0 !! trading_pair m) as [q|] eqn:Hq; simpl;
    [|by auto 10].
  destruct (_order_books0 !! trading_pair m) as [b|]; simpl;
    [|destruct (cancelled_at env AwaitSleep); simpl; by auto 10].
  destruct (books0 !! b) as [book|]; simpl;
    [|destruct (cancelled_at env AwaitSleep); simpl; by auto 10].
  destruct (snapshot_uid book >? update_id m)%Z; simpl; [by auto 10|].
  destruct (queues0 !! q) as [items|] eqn:Hitems; simpl;
    [|destruct (cancelled_at env AwaitSleep); simpl; by auto 10].
  destruct (_ >? _)%Z; simpl; repeat (split; [done|]); right;
    exists m, rest, q, items; done.
Qed.

(** ** The routers keep the order of arrival *)

Lemma forwarded_to_ext (w w' : World) (q : ref) (m : OrderBookMessage) :
  _tracking_message_queues w' = _tracking_message_queues w →
  _order_books w' = _order_books w →
  books w' = books w →
  forwarded_to w' q m = forwarded_to w q m.
Proof. unfold forwarded_to, fresh_enough. by intros -> -> ->. Qed.

(** One pass of the diff router that is not cancelled, on a tracker in
    which the registered pairs have books. *)
Lemma diff_router_pass (env : Env) (c : Counters) (w : World)
    (m : OrderBookMessage) (rest : list OrderBookMessage) :
  (∀ p, cancelled_at env p = false) →
  _order_book_diff_stream w = m :: rest →
  registered_have_books w →
  ∃ c' w',
    _order_book_diff_router env (c, w) = Val () (c', w')
    ∧ _order_book_diff_stream w' = rest
    ∧ _tracking_message_queues w' = _tracking_message_queues w
    ∧ _order_books w' = _order_books w
    ∧ books w' = books w
    ∧ ∀ q items, queues w !! q = Some items →
        queues w' !! q = Some (if forwarded_to w q m then items ++ [m] else items).
Proof.
  intros Hc Hs Hreg.
  unfold _order_book_diff_router, _order_book_diff_router_body.
  unfold forwarded_to, fresh_enough.
  destruct (_tracking_message_queues w !! trading_pair m) as [q0|] eqn:Hq.
  - destruct (Hreg _ _ Hq) as ([items0 Hitems0] & b & Hb & [book Hbook]).
    destruct w; simpl in *. run_pass. rewrite (Hc AwaitGet), Hs; simpl.
    rewrite Hq; simpl. rewrite Hb; simpl. rewrite Hbook; simpl.
    destruct (snapshot_uid book >? update_id m)%Z; simpl.
    + eexists _, _. split; [done|]. simpl. repeat (split; [done|]).
      intros q items Hitems. rewrite Hitems. by rewrite andb_false_r.
    + rewrite Hitems0; simpl.
      destruct (_ >? _)%Z; simpl; eexists _, _; (split; [done|]); simpl;
        repeat (split; [done|]); intros q items Hitems; rewrite andb_true_r;
        case_bool_decide as Hqq; simplify_eq;
        rewrite ?lookup_insert_eq, ?lookup_insert_ne by congruence; congruence.
  - destruct w; simpl in *. run_pass. rewrite (Hc AwaitGet), Hs; simpl.
    rewrite Hq; simpl. eexists _, _. split; [done|]. simpl.
    repeat (split; [done|]). intros q items Hitems. by rewrite Hitems.
Qed.

(** X4. The diff router keeps the order of arrival: after it has
    handled the messages [msgs] of the diff stream, with no book
    changing meanwhile, every queue holds what it held followed by the
    messages routed to it that were not stale, in the order of the
    stream. *)
Theorem diff_router_keeps_arrival_order (msgs : list OrderBookMessage) :
  ∀ (envs : list Env) (c : Counters) (w : World)
    (rest : list OrderBookMessage) (q : ref) (items : list OrderBookMessage),
  length envs = length msgs →
  (∀ env p, env ∈ envs → cancelled_at env p = false) →
  _order_book_diff_stream w = msgs ++ rest →
  registered_have_books w →
  queues w !! q = Some items →
  let s := passes _order_book_diff_router envs (c, w) in
  _order_book_diff_stream s.2 = rest
  ∧ books s.2 = books w
  ∧ queues s.2 !! q = Some (items ++ filter (λ m, forwarded_to w q m = true) msgs).
Proof.
  induction msgs as [|m msgs IH]; intros envs c w rest q items Hlen Hc Hs Hreg Hitems.
  - destruct envs; [|done]. simpl. by rewrite app_nil_r.
  - destruct envs as [|env envs]; [done|]. simpl in Hlen.
    destruct (diff_router_pass env c w m (msgs ++ rest))
      as (c' & w' & Hpass & Hs' & HQ & HOB & HB & Hqs); auto.
    { intros p. apply Hc. by left. }
    simpl. rewrite Hpass.
    destruct (IH envs c' w' rest q
                (if forwarded_to w q m then items ++ [m] else items))
      as (IH1 & IH2 & IH3); auto.
    { intros env' p Hin. apply Hc. by right. }
    { intros k q' Hk. rewrite HQ in Hk. destruct (Hreg k q' Hk) as ([x Hx] & b & Hb & Hbk).
      split; [rewrite (Hqs q' x Hx); eauto|]. exists b. by rewrite HOB, HB. }
    split; [done|]. split; [congruence|]. rewrite IH3. f_equal.
    rewrite (list_filter_iff (λ m0, forwarded_to w' q m0 = true)
               (λ m0, forwarded_to w q m0 = true))
      by (intros m0; by rewrite (forwarded_to_ext w w')).
    rewrite filter_cons. destruct (decide (forwarded_to w q m = true)) as [E|E].
    + rewrite E. by rewrite <- app_assoc.
    + apply not_true_is_false in E. by rewrite E.
Qed.

(** One pass of the snapshot router that is not cancelled, on a tracker
    whose registered queues are in the store. *)
Lemma snapshot_router_pass (env : Env) (w : World)
    (m : OrderBookMessage) (rest : list OrderBookMessage) :
  (∀ p, cancelled_at env p = false) →
  _order_book_snapshot_stream w = m :: rest →
  (∀ k q, _tracking_message_queues w !! k = Some q → is_Some (queues w !! q)) →
  ∃ w',
    _order_book_snapshot_router env ((), w) = Val () ((), w')
    ∧ _order_book_snapshot_stream w' = rest
    ∧ _tracking_message_queues w' = _tracking_message_queues w
    ∧ books w' = books w
    ∧ ∀ q items, queues w !! q = Some items →
        queues w' !! q =
          Some (if bool_decide (_tracking_message_queues w !! trading_pair m = Some q)
                then items ++ [m] else items).
Proof.
  intros Hc Hs Hreg.
  unfold _order_book_snapshot_router, _order_book_snapshot_router_body.
  destruct (_tracking_message_queues w !! trading_pair m) as [q0|] eqn:Hq.
  - destruct (Hreg _ _ Hq) as [items0 Hitems0].
    destruct w; simpl in *. run_pass. rewrite (Hc AwaitGet), Hs; simpl.
    rewrite Hq; simpl. rewrite Hitems0; simpl.
    eexists. split; [done|]. simpl. repeat (split; [done|]).
    intros q items Hitems. case_bool_decide as Hqq; simplify_eq;
      rewrite ?lookup_insert_eq, ?lookup_insert_ne by congruence; congruence.
  - destruct w; simpl in *. run_pass. rewrite (Hc AwaitGet), Hs; simpl.
    rewrite Hq; simpl. eexists. split; [done|]. simpl.
    repeat (split; [done|]). intros q items Hitems. by rewrite Hitems.
Qed.

(** X5. The snapshot router keeps the order of arrival: after it has
    handled the messages [msgs] of the snapshot stream, every queue
    holds what it held followed by all the messages of the pairs
    registered to it, in the order of the stream; no book is read or
    changed. *)
Theorem snapshot_router_keeps_arrival_order (msgs : list OrderBookMessage) :
  ∀ (envs : list Env) (w : World)
    (rest : list OrderBookMessage) (q : ref) (items : list OrderBookMessage),
  length envs = length msgs →
  (∀ env p, env ∈ envs → cancelled_at env p = false) →
  _order_book_snapshot_stream w = msgs ++ rest →
  (∀ k q, _tracking_message_queues w !! k = Some q → is_Some (queues w !! q)) →
  queues w !! q = Some items →
  let s := passes _order_book_snapshot_router envs ((), w) in
  _order_book_snapshot_stream s.2 = rest
  ∧ books s.2 = books w
  ∧ queues s.2 !! q =
      Some (items ++ filter (λ m, _tracking_message_queues w !! trading_pair m = Some q) msgs).
Proof.
  induction msgs as [|m msgs IH]; intros envs w rest q items Hlen Hc Hs Hreg Hitems.
  - destruct envs; [|done]. simpl. by rewrite app_nil_r.
  - destruct envs as [|env envs]; [done|]. simpl in Hlen.
    destruct (snapshot_router_pass env w m (msgs ++ rest))
      as (w' & Hpass & Hs' & HQ & HB & Hqs); auto.
    { intros p. apply Hc. by left. }
    simpl. rewrite Hpass.
    destruct (IH envs w' rest q
                (if bool_decide (_tracking_message_queues w !! trading_pair m = Some q)
                 then items ++ [m] else items))
      as (IH1 & IH2 & IH3); auto.
    { intros env' p Hin. apply Hc. by right. }
    { intros k q' Hk. rewrite HQ in Hk. destruct (Hreg k q' Hk) as [x Hx].
      rewrite (Hqs q' x Hx). eauto. }
    split; [done|]. split; [congruence|]. rewrite IH3, HQ. f_equal.
    rewrite filter_cons. case_bool_decide.
    + rewrite decide_True by done. by rewrite <- app_assoc.
    + rewrite decide_False by done. done.
Qed.

(** ** The worker on diffs *)

(** X6. On a diff the worker calls [apply_diffs] on its book with the
    bids, the asks and the update id of the message; when the call
    returns, the message is appended to the buffer, which is trimmed to
    its last 32 entries, and it is counted: the count is logged and
    reset when the clock has entered a new minute. *)
Theorem worker_applies_diff (env : Env) (l : WorkerLocals) (w : World)
    (m : OrderBookMessage) (rest window : list OrderBookMessage) (book : OrderBook) :
  cancelled_at env AwaitGet = false →
  queues w !! wk_message_queue l = Some (m :: rest) →
  type m = DIFF →
  books w !! wk_order_book l = Some book →
  deques w !! wk_past_diffs_window l = Some window →
  (apply_diffs book (bids m) (asks m) (update_id m)).2 = Returns →
  let w' := upd_deques <[wk_past_diffs_window l := last_n 32 (window ++ [m])]>
              (upd_books <[wk_order_book l :=
                             (apply_diffs book (bids m) (asks m) (update_id m)).1]>
                 (upd_queues <[wk_message_queue l := rest]> w)) in
  let n := (wk_diff_messages_accepted l + 1)%Z in
  let stats now count :=
    {| wk_trading_pair := wk_trading_pair l;
       wk_past_diffs_window := wk_past_diffs_window l;
       wk_message_queue := wk_message_queue l;
       wk_order_book := wk_order_book l;
       wk_last_message_timestamp := now;
       wk_diff_messages_accepted := count |} in
  _track_single_book env (l, w) =
    if (minute_index (time_time env) >? minute_index (wk_last_message_timestamp l))%Z
    then Val () (stats (time_time env) 0%Z,
                 emit (LogDebug "Processed %d order book diffs for %s."
                         [ArgInt n; ArgStr (wk_trading_pair l)]) w')
    else Val () (stats (time_time env) n, w').
Proof.
  intros Hget Hq Hty Hbook Hwin Hret w' n stats. subst w' n stats.
  unfold _track_single_book, _track_single_book_body.
  destruct w; simpl in *. run_pass. rewrite Hget; simpl. rewrite Hq; simpl.
  rewrite Hty; simpl. rewrite Hbook; simpl.
  destruct (apply_diffs book (bids m) (asks m) (update_id m)) as [b' c']; simpl in *.
  subst c'; simpl. rewrite Hwin; simpl. rewrite lookup_insert_eq; simpl.
  rewrite popleft_while_longer_last_n, insert_insert_eq.
  by destruct (_ >? _)%Z.
Qed.

(** X7. When [apply_diffs] raises, the diff is lost: it has left the
    queue, it does not enter the buffer and it is not counted; the
    error is logged, the worker sleeps five seconds and goes on with
    the next message (a cancellation delivered during the sleep ends
    it).  The book is left as the failed call left it. *)
Theorem worker_drops_diff_that_fails (env : Env) (l : WorkerLocals) (w : World)
    (m : OrderBookMessage) (rest : list OrderBookMessage) (book : OrderBook)
    (what : string) :
  cancelled_at env AwaitGet = false →
  queues w !! wk_message_queue l = Some (m :: rest) →
  type m = DIFF →
  books w !! wk_order_book l = Some book →
  (apply_diffs book (bids m) (asks m) (update_id m)).2 = Throws what →
  let w' := emit (Sleep 5)
              (emit (LogError "Unknown error. Retrying after 5 seconds.")
                 (upd_books <[wk_order_book l :=
                                (apply_diffs book (bids m) (asks m) (update_id m)).1]>
                    (upd_queues <[wk_message_queue l := rest]> w))) in
  _track_single_book env (l, w) =
    (if cancelled_at env AwaitSleep then Exc CancelledError (l, w') else Val () (l, w'))
  ∧ deques w' = deques w
  ∧ queues w' !! wk_message_queue l = Some rest.
Proof.
  intros Hget Hq Hty Hbook Hret w'. subst w'.
  unfold _track_single_book, _track_single_book_body.
  destruct w; simpl in *. run_pass. rewrite Hget; simpl. rewrite Hq; simpl.
  rewrite Hty; simpl. rewrite Hbook; simpl.
  destruct (apply_diffs book (bids m) (asks m) (update_id m)) as [b' c']; simpl in *.
  subst c'; simpl. rewrite lookup_insert_eq.
  by destruct (cancelled_at env AwaitSleep).
Qed.

(** X8. Whatever its input, a pass of the worker of one pair touches
    no object but its own queue, book and buffer: every other queue,
    book and buffer, the tasks, the four dictionaries and the three
    streams are as they were, and the references the worker holds do
    not change. *)
Theorem worker_frame (env : Env) (l : WorkerLocals) (w : World) :
  let r := _track_single_book env (l, w) in
  (∀ b, b ≠ wk_order_book l → books (world_of r) !! b = books w !! b)
  ∧ (∀ q, q ≠ wk_message_queue l → queues (world_of r) !! q = queues w !! q)
  ∧ (∀ d, d ≠ wk_past_diffs_window l → deques (world_of r) !! d = deques w !! d)
  ∧ tasks (world_of r) = tasks w
  ∧ dictionaries_of (world_of r) = dictionaries_of w
  ∧ _order_book_diff_stream (world_of r) = _order_book_diff_stream w
  ∧ _order_book_snapshot_stream (world_of r) = _order_book_snapshot_stream w
  ∧ _order_book_trade_stream (world_of r) = _order_book_trade_stream w
  ∧ wk_trading_pair (locals_of r) = wk_trading_pair l
  ∧ wk_message_queue (locals_of r) = wk_message_queue l
  ∧ wk_order_book (locals_of r) = wk_order_book l
  ∧ wk_past_diffs_window (locals_of r) = wk_past_diffs_window l.
Proof.
  intros r. subst r. unfold _track_single_book, _track_single_book_body.
  destruct w; simpl. run_pass.
  assert (∀ (V : Type) (t : gmap ref V) (k : ref) (v : V),
            ∀ k', k' ≠ k → <[k := v]> t !! k' = t !! k') as Hne.
  { intros V t k v k' Hk. by rewrite lookup_insert_ne. }
  destruct (cancelled_at env AwaitGet); simpl; [done|].
  destruct (queues0 !! wk_message_queue l) as [[|m rest]|]; simpl;
    [destruct (cancelled_at env AwaitSleep); simpl; done| |
     destruct (cancelled_at env AwaitSleep); simpl; done].
  destruct (type m); simpl.
  - destruct (deques0 !! wk_past_diffs_window l) as [window|]; simpl;
      [|destruct (cancelled_at env AwaitSleep); simpl; repeat split; auto].
    destruct (books0 !! wk_order_book l) as [book|]; simpl;
      [|destruct (cancelled_at env AwaitSleep); simpl; repeat split; auto].
    destruct (restore_from_snapshot_and_diffs book m window) as [b' [|what]]; simpl;
      [repeat split; auto|
       destruct (cancelled_at env AwaitSleep); simpl; repeat split; auto].
  - destruct (books0 !! wk_order_book l) as [book|]; simpl;
      [|destruct (cancelled_at env AwaitSleep); simpl; repeat split; auto].
    destruct (apply_diffs book (bids m) (asks m) (update_id m)) as [b' [|what]]; simpl;
      [|destruct (cancelled_at env AwaitSleep); simpl; repeat split; auto].
    destruct (deques0 !! wk_past_diffs_window l) as [window|]; simpl;
      [|destruct (cancelled_at env AwaitSleep); simpl; repeat split; auto].
    rewrite lookup_insert_eq; simpl.
    destruct (_ >? _)%Z; simpl; repeat split; auto;
      intros d Hd; by rewrite !lookup_insert_ne.
  - repeat split; auto.
Qed.

(** ** The worker before its loop *)

(** X9. A worker that starts for a pair with a queue and a book
    registers a new, empty buffer under the pair, distinct from every
    buffer of the store, and keeps this buffer, the queue and the book
    of the pair for all its passes; nothing else changes. *)
Theorem worker_prologue_registers_empty_buffer (tp : string) (env : Env) (w : World)
    (q b : ref) :
  _tracking_message_queues w !! tp = Some q →
  _order_books w !! tp = Some b →
  let d := fresh (dom (deques w)) in
  deques w !! d = None
  ∧ _track_single_book_prologue tp env ((), w) =
      Val {| wk_trading_pair := tp;
             wk_past_diffs_window := d;
             wk_message_queue := q;
             wk_order_book := b;
             wk_last_message_timestamp := time_time env;
             wk_diff_messages_accepted := 0 |}
          ((), upd_past_diffs_windows <[tp := d]> (upd_deques <[d := []]> w)).
Proof.
  intros Hq Hb d. subst d. split; [apply not_elem_of_dom, is_fresh|].
  unfold _track_single_book_prologue.
  destruct w; simpl in *. run_pass. rewrite Hq; simpl. by rewrite Hb.
Qed.

(** X10. A worker that starts for a pair without a queue, or without a
    book, ends at once: the subscript raises [KeyError] before the
    [try], so the recovery of the loop (its log, its five seconds of
    sleep, its retry) never runs.  The only trace is the one error
    that the wrapper of [safe_ensure_future] logs for an exception that
    leaves a background task; the empty buffer the worker registered
    under the pair stays. *)
Theorem worker_for_unregistered_pair_ends (tp : string) (env : Env) (w : World)
    (t : ref) :
  tasks w !! t = Some {| coro := TrackSingleBook tp None; state := Pending |} →
  _tracking_message_queues w !! tp = None ∨ _order_books w !! tp = None →
  let w' := resume env t w in
  tasks w' !! t = Some {| coro := TrackSingleBook tp None; state := Finished |}
  ∧ (∃ what, effects w' =
       effects w ++ [LogError ("Unhandled error in background task: " +:+ what)])
  ∧ _past_diffs_windows w' !! tp = Some (fresh (dom (deques w)))
  ∧ deques w' !! fresh (dom (deques w)) = Some []
  ∧ books w' = books w
  ∧ queues w' = queues w.
Proof.
  intros Ht Hmiss w'. subst w'. unfold resume. rewrite Ht; simpl.
  unfold _track_single_book_prologue, safe_wrapper, finish.
  destruct w; simpl in *. run_pass.
  destruct (_tracking_message_queues0 !! tp) as [q|] eqn:Hq; simpl.
  - destruct Hmiss as [Hmiss|Hmiss]; [done|]. rewrite Hmiss; simpl.
    rewrite lookup_alter_eq, Ht, !lookup_insert_eq. eauto 10.
  - rewrite lookup_alter_eq, Ht, !lookup_insert_eq. eauto 10.
Qed.

(** ** The trade emitter *)

(** X11. A trade message for a pair without a book is consumed and
    counted as rejected; no book changes and nothing is logged. *)
Theorem trade_emitter_rejects_unknown_pair (env : Env) (c : Counters) (w : World)
    (m : OrderBookMessage) (rest : list OrderBookMessage) :
  cancelled_at env AwaitGet = false →
  _order_book_trade_stream w = m :: rest →
  _order_books w !! trading_pair m = None →
  let r := _emit_trade_event_loop env (c, w) in
  r = Val () ({| last_message_timestamp := last_message_timestamp c;
                 messages_accepted := messages_accepted c;
                 messages_rejected := messages_rejected c + 1 |},
              set_trade_stream rest w)
  ∧ books (world_of r) = books w
  ∧ effects (world_of r) = effects w.
Proof.
  intros Hget Hs Hb r. subst r.
  unfold _emit_trade_event_loop, _emit_trade_event_loop_body.
  destruct w; simpl in *. run_pass. rewrite Hget, Hs; simpl. by rewrite Hb.
Qed.

(** X12. A trade message of a tracked pair whose content lacks the
    price, the amount or the trade type, or whose price or amount has
    no float value, is consumed without any book being touched and
    without being counted; the failure is logged through the network
    logger and the emitter sleeps five seconds before its next pass. *)
Theorem trade_emitter_recovers_from_bad_content (env : Env) (c : Counters) (w : World)
    (m : OrderBookMessage) (rest : list OrderBookMessage) (b : ref) :
  cancelled_at env AwaitGet = false →
  _order_book_trade_stream w = m :: rest →
  _order_books w !! trading_pair m = Some b →
  trade_content_ok m = false →
  let w' := emit (Sleep 5)
              (emit (LogNetwork "Unexpected error routing order book messages.")
                 (set_trade_stream rest w)) in
  _emit_trade_event_loop env (c, w) =
    (if cancelled_at env AwaitSleep then Exc CancelledError (c, w') else Val () (c, w'))
  ∧ books w' = books w.
Proof.
  intros Hget Hs Hb Hbad w'. subst w'.
  unfold _emit_trade_event_loop, _emit_trade_event_loop_body, trade_event_of, float_.
  unfold trade_content_ok in Hbad.
  destruct w; simpl in *. run_pass. rewrite Hget, Hs; simpl. rewrite Hb; simpl.
  destruct (content m !! "price") as [price|]; simpl;
    [|by destruct (cancelled_at env AwaitSleep)].
  destruct (to_float price) as [fp|] eqn:Hfp; simpl;
    [|by destruct (cancelled_at env AwaitSleep)].
  destruct (content m !! "amount") as [amount|]; simpl;
    [|by destruct (cancelled_at env AwaitSleep)].
  destruct (to_float amount) as [fa|] eqn:Hfa; simpl;
    [|by destruct (cancelled_at env AwaitSleep)].
  destruct (content m !! "trade_type") as [flag|]; simpl;
    [done|by destruct (cancelled_at env AwaitSleep)].
Qed.

(** X13. A well-formed trade message of a tracked pair whose
    [apply_trade] returns is counted as accepted; the counters are
    logged and reset when the clock has entered a new minute, and the
    time of the message becomes the last message time. *)
Theorem trade_emitter_counts_applied_trade (env : Env) (c : Counters) (w : World)
    (m : OrderBookMessage) (rest : list OrderBookMessage)
    (b : ref) (book : OrderBook) (price amount flag : pyobj) (fprice famount : float) :
  cancelled_at env AwaitGet = false →
  _order_book_trade_stream w = m :: rest →
  _order_books w !! trading_pair m = Some b →
  books w !! b = Some book →
  content m !! "price" = Some price → to_float price = Some fprice →
  content m !! "amount" = Some amount → to_float amount = Some famount →
  content m !! "trade_type" = Some flag →
  let event := {| ev_trading_pair := trading_pair m;
                  ev_timestamp := timestamp m;
                  ev_price := fprice;
                  ev_amount := famount;
                  ev_type := SELL |} in
  (apply_trade book event).2 = Returns →
  let w' := upd_books <[b := (apply_trade book event).1]> (set_trade_stream rest w) in
  let n := (messages_accepted c + 1)%Z in
  _emit_trade_event_loop env (c, w) =
    if (minute_index (time_time env) >? minute_index (last_message_timestamp c))%Z
    then Val () ({| last_message_timestamp := time_time env;
                    messages_accepted := 0;
                    messages_rejected := 0 |},
                 emit (LogDebug "Trade messages processed: %d, rejected: %d"
                         [ArgInt n; ArgInt (messages_rejected c)]) w')
    else Val () ({| last_message_timestamp := time_time env;
                    messages_accepted := n;
                    messages_rejected := messages_rejected c |}, w').
Proof.
  intros Hget Hs Hb Hbook Hp Hfp Ha Hfa Hflag event Hret w' n. subst w' n event.
  unfold _emit_trade_event_loop, _emit_trade_event_loop_body, trade_event_of, float_.
  destruct w; simpl in *. run_pass. rewrite Hget, Hs; simpl. rewrite Hb; simpl.
  rewrite Hp; simpl. rewrite Hfp; simpl. rewrite Ha; simpl. rewrite Hfa; simpl.
  rewrite Hflag; simpl. rewrite Hbook; simpl.
  assert ((if equals_sell_value flag then SELL else SELL) = SELL) as ->
    by (by destruct (equals_sell_value flag)).
  destruct (apply_trade book _) as [b' c']; simpl in *. subst c'; simpl.
  by destruct (_ >? _)%Z.
Qed.

(** X14. Whatever its input, a pass of the trade emitter leaves the
    queues, the buffers, the tasks and the four dictionaries as they
    were, and changes at most one book: the one registered for the
    pair of the head of the trade stream. *)
Theorem trade_emitter_frame (env : Env) (c : Counters) (w : World) :
  let r := _emit_trade_event_loop env (c, w) in
  queues (world_of r) = queues w
  ∧ deques (world_of r) = deques w
  ∧ tasks (world_of r) = tasks w
  ∧ dictionaries_of (world_of r) = dictionaries_of w
  ∧ (books (world_of r) = books w
     ∨ ∃ m rest b book event,
         _order_book_trade_stream w = m :: rest
         ∧ _order_books w !! trading_pair m = Some b
         ∧ books w !! b = Some book
         ∧ ev_type event = SELL
         ∧ books (world_of r) = <[b := (apply_trade book event).1]> (books w)).
Proof.
  intros r. subst r.
  unfold _emit_trade_event_loop, _emit_trade_event_loop_body, trade_event_of, float_.
  destruct w; simpl. run_pass.
  destruct (cancelled_at env AwaitGet); simpl; [by auto 10|].
  destruct _order_book_trade_stream0 as [|m rest]; simpl; [by auto 10|].
  destruct (_order_books0 !! trading_pair m) as [b|] eqn:Hb; simpl; [|by auto 10].
  destruct (content m !! "price") as [price|]; simpl;
    [|destruct (cancelled_at env AwaitSleep); simpl; by auto 10].
  destruct (to_float price) as [fp|]; simpl;
    [|destruct (cancelled_at env AwaitSleep); simpl; by auto 10].
  destruct (content m !! "amount") as [amount|]; simpl;
    [|destruct (cancelled_at env AwaitSleep); simpl; by auto 10].
  destruct (to_float amount) as [fa|]; simpl;
    [|destruct (cancelled_at env AwaitSleep); simpl; by auto 10].
  destruct (content m !! "trade_type") as [flag|]; simpl;
    [|destruct (cancelled_at env AwaitSleep); simpl; by auto 10].
  destruct (books0 !! b) as [book|] eqn:Hbook; simpl;
    [|destruct (cancelled_at env AwaitSleep); simpl; by auto 10].
  match goal with
  | |- context [apply_trade book ?ev] =>
      assert (ev_type ev = SELL) as Hsell
        by (simpl; by destruct (equals_sell_value flag));
      destruct (apply_trade book ev) as [b' [|what]] eqn:Hcall; simpl
  end.
  - destruct (_ >? _)%Z; simpl; repeat (split; [done|]); right;
      eexists m, rest, b, book, _; rewrite Hcall; simpl; done.
  - destruct (cancelled_at env AwaitSleep); simpl; repeat (split; [done|]); right;
      eexists m, rest, b, book, _; rewrite Hcall; simpl; done.
Qed.

(** ** The refresher *)

Lemma grows_from_refl (w : World) : grows_from w w.
Proof. unfold grows_from. repeat split; auto. Qed.

Lemma grows_from_trans (w1 w2 w3 : World) :
  grows_from w1 w2 → grows_from w2 w3 → grows_from w1 w3.
Proof.
  intros (Hu1 & Hb1 & Hq1 & Ht1) (Hu2 & Hb2 & Hq2 & Ht2).
  split; [congruence|]. split; [auto|]. split; [auto|].
  intros r x Hr. destruct (Ht1 r x Hr) as [H1|H1].
  - auto.
  - destruct (Ht2 r _ H1) as [H2|H2]; [auto|]. right. by rewrite cancel_idemp in H2.
Qed.

Lemma for_each_grows {A} (body : A → M unit unit) (xs : list A) :
  (∀ x env w, grows_from w (world_of (body x env ((), w)))) →
  ∀ env w, grows_from w (world_of (for_each xs body env ((), w))).
Proof.
  intros Hbody. induction xs as [|x xs IH]; intros env w; simpl.
  - apply grows_from_refl.
  - unfold bind. pose proof (Hbody x env w) as Hx.
    destruct (body x env ((), w)) as [[] [[] w']|e [[] w']|[[] w']]; simpl in *;
      [|done|done].
    eapply grows_from_trans; [exact Hx|apply IH].
Qed.

Lemma start_tracking_grows (avail : gmap string OrderBookTrackerEntry)
    (tp : string) (env : Env) (w : World) :
  grows_from w (world_of (start_tracking avail tp env ((), w))).
Proof.
  unfold start_tracking, safe_ensure_future.
  pose proof (is_fresh (dom (books w))) as Hb.
  pose proof (is_fresh (dom (queues w))) as Hq.
  pose proof (is_fresh (dom (tasks w))) as Ht.
  apply not_elem_of_dom in Hb. apply not_elem_of_dom in Hq. apply not_elem_of_dom in Ht.
  destruct w; simpl in *. run_pass.
  destruct (avail !! tp) as [entry|]; simpl; [|apply grows_from_refl].
  unfold grows_from; simpl. split; [done|].
  repeat split; intros r x Hr; try left;
    (rewrite lookup_insert_ne; [done|congruence]).
Qed.

Lemma stop_tracking_grows (tp : string) (env : Env) (w : World) :
  grows_from w (world_of (stop_tracking tp env ((), w))).
Proof.
  unfold stop_tracking, del.
  destruct w; simpl in *. run_pass.
  destruct (_tracking_tasks0 !! tp) as [t|] eqn:Ht; simpl; [|apply grows_from_refl].
  rewrite Ht; simpl.
  assert (∀ r x, tasks0 !! r = Some x →
            alter cancel t tasks0 !! r = Some x ∨ alter cancel t tasks0 !! r = Some (cancel x))
    as Hts.
  { intros r x Hr. destruct (decide (t = r)) as [->|Hne].
    - right. by rewrite lookup_alter_eq, Hr.
    - left. by rewrite lookup_alter_ne. }
  destruct (_order_books0 !! tp); simpl;
    [destruct (_tracking_message_queues0 !! tp); simpl|];
    unfold grows_from; simpl; repeat split; auto.
Qed.

Lemma refresh_grows (env : Env) (w : World) :
  grows_from w (world_of (_refresh_tracking_tasks env ((), w))).
Proof.
  unfold _refresh_tracking_tasks, get_tracking_pairs.
  cbv beta iota delta [bind ret raise ask gets fst snd]; simpl.
  destruct (cancelled_at env AwaitTrackingPairs); simpl; [apply grows_from_refl|].
  destruct (tracking_pairs env) as [[|what] avail]; simpl; [|apply grows_from_refl].
  match goal with
  | |- context [for_each ?ns (start_tracking avail) env ((), w)] =>
      pose proof (for_each_grows (start_tracking avail) ns
                    (start_tracking_grows avail) env w) as H1;
      destruct (for_each ns (start_tracking avail) env ((), w))
        as [[] [[] w1]|e [[] w1]|[[] w1]]; simpl in *; [|done|done]
  end.
  eapply grows_from_trans; [exact H1|].
  apply (for_each_grows stop_tracking _ stop_tracking_grows).
Qed.

(** X15. Whatever the data source answers and whether or not the pass
    fails on the way, [_refresh_tracking_tasks] never touches the
    buffers, [_past_diffs_windows], the three streams or the task
    attributes; the books and queues that exist stay as they are (the
    pass only adds new ones), and a task that exists is left alone or
    has its cancellation requested. *)
Theorem refresh_only_adds_and_cancels (env : Env) (w : World) :
  let w' := world_of (_refresh_tracking_tasks env ((), w)) in
  deques w' = deques w
  ∧ _past_diffs_windows w' = _past_diffs_windows w
  ∧ _order_book_diff_stream w' = _order_book_diff_stream w
  ∧ _order_book_snapshot_stream w' = _order_book_snapshot_stream w
  ∧ _order_book_trade_stream w' = _order_book_trade_stream w
  ∧ handles_of_stop w' = handles_of_stop w
  ∧ _order_book_trade_listener_task w' = _order_book_trade_listener_task w
  ∧ (∀ r x, books w !! r = Some x → books w' !! r = Some x)
  ∧ (∀ r x, queues w !! r = Some x → queues w' !! r = Some x)
  ∧ (∀ r x, tasks w !! r = Some x →
       tasks w' !! r = Some x ∨ tasks w' !! r = Some (cancel x)).
Proof.
  intros w'. subst w'.
  destruct (refresh_grows env w) as (Hbeyond & Hbs & Hqs & Hts).
  unfold beyond_refresher in Hbeyond.
  injection Hbeyond as Hd Hpw Hs1 Hs2 Hs3 H1 H2 H3 H4 H5 H6 H7 Htp.
  unfold handles_of_stop. rewrite H1, H3, H4, H5, H6, H7.
  repeat (split; [done|]). done.
Qed.

(** X16. When the pairs with a running worker are exactly the pairs of
    the data source's answer, a pass of the refresher changes nothing
    at all: no dictionary, no object, nothing logged; the loop then
    sleeps 3600 seconds. *)
Theorem refresh_is_idle_when_nothing_changed (env : Env) (w : World)
    (avail : gmap string OrderBookTrackerEntry) :
  cancelled_at env AwaitTrackingPairs = false →
  tracking_pairs env = (Returns, avail) →
  tracking_trading_pairs w = dom avail →
  _refresh_tracking_tasks env ((), w) = Val () ((), w)
  ∧ _refresh_tracking_loop env ((), w) =
      (if cancelled_at env AwaitSleep
       then Exc CancelledError ((), emit (Sleep 3600) w)
       else Val () ((), emit (Sleep 3600) w)).
Proof.
  intros Hc Hans Htr.
  assert (_refresh_tracking_tasks env ((), w) = Val () ((), w)) as Hrun.
  { unfold _refresh_tracking_tasks, get_tracking_pairs.
    cbv beta iota delta [bind ret raise ask gets fst snd]; simpl.
    rewrite Hc, Hans; simpl. rewrite Htr, difference_diag_L, elements_empty. done. }
  split; [done|].
  unfold _refresh_tracking_loop, try_except, bind. rewrite Hrun.
  unfold sleep, log, bind, modify, ask, ret, raise; simpl.
  by destruct (cancelled_at env AwaitSleep).
Qed.

(** X17. When the data source raises, the pass of the refresher loop
    leaves the tracker as it was, logs the error and sleeps five
    seconds, not 3600, before the next attempt. *)
Theorem refresh_loop_retries_after_data_source_failure (env : Env) (w : World)
    (what : string) (avail : gmap string OrderBookTrackerEntry) :
  cancelled_at env AwaitTrackingPairs = false →
  tracking_pairs env = (Throws what, avail) →
  let w' := emit (Sleep 5) (emit (LogError "Unknown error. Retrying after 5 seconds.") w) in
  _refresh_tracking_loop env ((), w) =
    (if cancelled_at env AwaitSleep then Exc CancelledError ((), w') else Val () ((), w')).
Proof.
  intros Hc Hans w'. subst w'.
  unfold _refresh_tracking_loop, _refresh_tracking_tasks, get_tracking_pairs.
  run_pass. rewrite Hc, Hans; simpl. by destruct (cancelled_at env AwaitSleep).
Qed.

(** The dictionaries after a pass of the refresher on a consistent
    tracker, key by key. *)
Lemma refresh_dictionaries (env : Env) (w : World)
    (avail : gmap string OrderBookTrackerEntry) :
  cancelled_at env AwaitTrackingPairs = false →
  tracking_pairs env = (Returns, avail) →
  consistent w →
  ∃ w',
    _refresh_tracking_tasks env ((), w) = Val () ((), w')
    ∧ ∀ tp,
        (tp ∈ tracking_trading_pairs w → avail !! tp = None →
           _order_books w' !! tp = None)
        ∧ (is_Some (avail !! tp) → tp ∉ tracking_trading_pairs w →
           is_Some (_order_books w' !! tp))
        ∧ ((tp ∈ tracking_trading_pairs w ↔ is_Some (avail !! tp)) →
           _tracking_tasks w' !! tp = _tracking_tasks w !! tp
           ∧ _order_books w' !! tp = _order_books w !! tp
           ∧ _tracking_message_queues w' !! tp = _tracking_message_queues w !! tp).
Proof.
  intros Hc Hans (Hdob & Hdq & Hvt & Hvb & Hvq).
  set (tracking := tracking_trading_pairs w).
  set (ns := elements (dom avail ∖ tracking)).
  set (ds := elements (tracking ∖ dom avail)).
  assert (∀ tp, tp ∈ ns ↔ is_Some (avail !! tp) ∧ tp ∉ tracking) as Hns.
  { intros tp. unfold ns. rewrite elem_of_elements, elem_of_difference, elem_of_dom. done. }
  assert (∀ tp, tp ∈ ds ↔ tp ∈ tracking ∧ avail !! tp = None) as Hds.
  { intros tp. unfold ds.
    rewrite elem_of_elements, elem_of_difference, not_elem_of_dom. done. }
  destruct (start_tracking_all env avail ns w)
    as (w1 & Hrun1 & Hnew & Hold1 & _).
  { intros tp Hin. by apply Hns in Hin as [? _]. }
  assert (∀ tp, tp ∈ ds → tp ∉ ns) as Hdn.
  { intros tp [_ Hd]%Hds [[? Hn] _]%Hns. congruence. }
  destruct (stop_tracking_all env ds w1) as (w2 & Hrun2 & Hdel & Hold2 & _).
  { apply NoDup_elements. }
  { intros tp Hin. destruct (Hold1 tp (Hdn tp Hin)) as (-> & -> & ->).
    apply Hds in Hin as [(t & Ht & _)%elem_of_tracking_trading_pairs _].
    assert (tp ∈ dom (_tracking_tasks w)) as Hd by (apply elem_of_dom; eauto).
    split; [eauto|]. split; apply elem_of_dom; congruence. }
  exists w2. split.
  { unfold _refresh_tracking_tasks, get_tracking_pairs.
    cbv beta iota delta [bind ret raise ask gets fst snd]; simpl.
    rewrite Hc, Hans; simpl. fold tracking ns ds.
    rewrite Hrun1. exact Hrun2. }
  intros tp. split; [|split].
  - intros Htr Hnone. apply (Hdel tp). by apply Hds.
  - intros [entry Hentry] Hntr.
    assert (tp ∈ ns) as Hin by (apply Hns; eauto).
    assert (tp ∉ ds) as Hnd by (intros Hd; by apply Hdn in Hd).
    destruct (Hold2 tp Hnd) as (_ & -> & _).
    destruct (Hnew tp entry Hin Hentry) as (b & q & t & -> & _). eauto.
  - intros Hiff.
    assert (tp ∉ ds) as Hnd.
    { intros [Htr Hnone]%Hds. apply Hiff in Htr as [? ?]. congruence. }
    assert (tp ∉ ns) as Hnn.
    { intros [Hsome Hntr]%Hns. by apply Hiff in Hsome. }
    destruct (Hold2 tp Hnd) as (-> & -> & ->).
    destruct (Hold1 tp Hnn) as (-> & -> & ->). done.
Qed.

(** X18. A pair that is tracked and is again in the data source's
    answer keeps its task, its queue and its book: the new book that
    the answer carries for it is not installed, and the state of its
    book and the content of its queue are as before the pass. *)
Theorem refresh_keeps_tracked_pairs (env : Env) (w : World)
    (avail : gmap string OrderBookTrackerEntry) (tp : string) :
  cancelled_at env AwaitTrackingPairs = false →
  tracking_pairs env = (Returns, avail) →
  consistent w →
  tp ∈ tracking_trading_pairs w →
  is_Some (avail !! tp) →
  let w' := world_of (_refresh_tracking_tasks env ((), w)) in
  _tracking_tasks w' !! tp = _tracking_tasks w !! tp
  ∧ _tracking_message_queues w' !! tp = _tracking_message_queues w !! tp
  ∧ _order_books w' !! tp = _order_books w !! tp
  ∧ (∀ b, _order_books w !! tp = Some b → books w' !! b = books w !! b)
  ∧ (∀ q, _tracking_message_queues w !! tp = Some q → queues w' !! q = queues w !! q).
Proof.
  intros Hc Hans Hcons Htr Hsome w'. subst w'.
  pose proof (refresh_grows env w) as (_ & Hbs & Hqs & _).
  destruct (refresh_dictionaries env w avail Hc Hans Hcons) as (w' & Hrun & Hd).
  rewrite Hrun in *. simpl in *.
  destruct (Hd tp) as (_ & _ & Hkeep). destruct Hkeep as (-> & -> & ->); [done|].
  destruct Hcons as (_ & _ & _ & Hvb & Hvq).
  repeat (split; [done|]). split.
  - intros b Hb. destruct (Hvb tp b Hb) as [x Hx]. rewrite Hx. by apply Hbs.
  - intros q Hq. destruct (Hvq tp q Hq) as [x Hx]. rewrite Hx. by apply Hqs.
Qed.

(** X19. After the first pass of the refresher on a new tracker, the
    books are those of the data source's answer, and the tracker is
    ready exactly when the answer is not empty and has at least as many
    pairs as the list of the data source has (none when there is no
    list). *)
Theorem ready_after_first_refresh (env : Env) (trading_pairs : option (list string))
    (avail : gmap string OrderBookTrackerEntry) :
  cancelled_at env AwaitTrackingPairs = false →
  tracking_pairs env = (Returns, avail) →
  let w' := world_of (_refresh_tracking_tasks env ((), __init__ trading_pairs)) in
  dom (_order_books w') = dom avail
  ∧ (ready w' = true ↔
       match trading_pairs with Some l => length l | None => 0 end ≤ size avail
       ∧ 0 < size avail).
Proof.
  intros Hc Hans w'. subst w'.
  pose proof (refresh_grows env (__init__ trading_pairs)) as (Hbeyond & _).
  destruct (refresh_dictionaries env (__init__ trading_pairs) avail Hc Hans
              (init_consistent trading_pairs)) as (w' & Hrun & Hd).
  rewrite Hrun in *. simpl in *.
  assert (tracking_trading_pairs (__init__ trading_pairs) = ∅) as Hempty.
  { unfold tracking_trading_pairs, __init__; simpl.
    by rewrite map_filter_empty, dom_empty_L. }
  assert (dom (_order_books w') = dom avail) as Hdom.
  { apply set_eq. intros tp. rewrite !elem_of_dom.
    destruct (Hd tp) as (_ & Hnew & Hkeep). rewrite Hempty in *. split.
    - intros Hin. destruct (avail !! tp) eqn:E; [eauto|].
      destruct Hkeep as (_ & Hob & _).
      { split; [set_solver|]. intros [? ?]. congruence. }
      rewrite Hob in Hin. simpl in Hin. rewrite lookup_empty in Hin.
      by destruct Hin.
    - intros Hin. apply Hnew; [done|set_solver]. }
  split; [done|].
  assert (_trading_pairs w' = trading_pairs) as Htp.
  { injection Hbeyond as _ _ _ _ _ _ _ _ _ _ _ _ ->. done. }
  unfold ready. rewrite length_or_empty, Htp.
  rewrite <- (size_dom (_order_books w')), Hdom, size_dom.
  rewrite andb_true_iff, !bool_decide_eq_true. done.
Qed.

(** ** [start] and [stop] *)

(** X20. [start] does not look at the task it may already hold: a
    second [start] replaces the handle of the first trade emitter by a
    new task, and a later [stop] cancels only the new one; the first
    emitter is left as it was, out of reach of the tracker. *)
Theorem start_twice_orphans_first_emitter (w : World) (t0 : ref) (task0 : Task) :
  _emit_trade_event_task w = Some t0 →
  tasks w !! t0 = Some task0 →
  t0 ∉ omap id [ _order_book_diff_listener_task w;
                 _order_book_snapshot_listener_task w;
                 _refresh_tracking_task w;
                 _order_book_diff_router_task w;
                 _order_book_snapshot_router_task w ] →
  let t1 := fresh (dom (tasks w)) in
  t1 ≠ t0
  ∧ _emit_trade_event_task (start w) = Some t1
  ∧ tasks (start w) !! t1 = Some {| coro := EmitTradeEventLoop None; state := Pending |}
  ∧ tasks (stop (start w)) !! t1
    = Some {| coro := EmitTradeEventLoop None; state := Cancelling |}
  ∧ tasks (stop (start w)) !! t0 = Some task0
  ∧ _emit_trade_event_task (stop (start w)) = None.
Proof.
  intros He Ht0 Hothers t1.
  assert (t1 ≠ t0) as Hne.
  { intros Heq. pose proof (is_fresh (dom (tasks w))) as Hfr. fold t1 in Hfr.
    rewrite Heq in Hfr. apply Hfr. apply elem_of_dom. eauto. }
  assert (tasks (start w) = <[t1 := {| coro := EmitTradeEventLoop None; state := Pending |}]>
                              (tasks w)) as Hts by (by destruct w).
  assert (handles_of_stop (start w)
          = t1 :: omap id [ _order_book_diff_listener_task w;
                            _order_book_snapshot_listener_task w;
                            _refresh_tracking_task w;
                            _order_book_diff_router_task w;
                            _order_book_snapshot_router_task w ]) as Hh
    by (by destruct w).
  split; [done|]. split; [by destruct w|].
  split; [by rewrite Hts, lookup_insert_eq|].
  rewrite !stop_tasks, !lookup_cancel_all, Hh, Hts.
  split; [|split].
  - rewrite decide_True by left. by rewrite lookup_insert_eq.
  - rewrite decide_False.
    + by rewrite lookup_insert_ne.
    + intros Hin. apply elem_of_cons in Hin as [?|?]; [congruence|done].
  - by destruct (stop_frame (start w)) as (_ & -> & _).
Qed.

(** Nothing but a cancellation leaves a loop: the clause for
    [Exception] logs and sleeps, and a sleep raises nothing else. *)
Lemma try_except_lets_cancellation_only {L} (body : M L unit)
    (env : Env) (s s' : L * World) (e : exn) :
  try_except body except_clauses env s = Exc e s'
  ∨ try_except body except_clauses_network env s = Exc e s' →
  e = CancelledError.
Proof.
  unfold try_except, except_clauses, except_clauses_network.
  unfold sleep, log, bind, modify, ask, ret, raise.
  destruct (body env s) as [[] s1|[|what] s1|s1]; simpl;
    try destruct (cancelled_at env AwaitSleep); intros [?|?]; congruence.
Qed.

Lemma tasks_emit (x : effect) (w : World) : tasks (emit x w) = tasks w.
Proof. by destruct w. Qed.

Lemma tasks_upd_tasks (f : gmap ref Task → gmap ref Task) (w : World) :
  tasks (upd_tasks f w) = f (tasks w).
Proof. by destruct w. Qed.

(** The routers, the worker and the trade emitter have no statement on
    a task. *)
Lemma diff_router_tasks (env : Env) (c : Counters) (w : World) :
  tasks (world_of (_order_book_diff_router env (c, w))) = tasks w.
Proof.
  unfold _order_book_diff_router, _order_book_diff_router_body.
  destruct w; simpl. run_pass.
  destruct (cancelled_at env AwaitGet); simpl; [done|].
  destruct _order_book_diff_stream0 as [|m rest]; simpl; [done|].
  destruct (_tracking_message_queues0 !! trading_pair m) as [q|]; simpl; [|done].
  destruct (_order_books0 !! trading_pair m) as [b|]; simpl; [|by destruct (cancelled_at env AwaitSleep)].
  destruct (books0 !! b) as [book|]; simpl; [|by destruct (cancelled_at env AwaitSleep)].
  destruct (snapshot_uid book >? update_id m)%Z; simpl; [done|].
  destruct (queues0 !! q) as [items|]; simpl; [|by destruct (cancelled_at env AwaitSleep)].
  by destruct (_ >? _)%Z.
Qed.

Lemma snapshot_router_tasks (env : Env) (w : World) :
  tasks (world_of (_order_book_snapshot_router env ((), w))) = tasks w.
Proof.
  unfold _order_book_snapshot_router, _order_book_snapshot_router_body.
  destruct w; simpl. run_pass.
  destruct (cancelled_at env AwaitGet); simpl; [done|].
  destruct _order_book_snapshot_stream0 as [|m rest]; simpl; [done|].
  destruct (_tracking_message_queues0 !! trading_pair m) as [q|]; simpl; [|done].
  destruct (queues0 !! q) as [items|]; simpl; [done|by destruct (cancelled_at env AwaitSleep)].
Qed.

Lemma worker_tasks (env : Env) (l : WorkerLocals) (w : World) :
  tasks (world_of (_track_single_book env (l, w))) = tasks w.
Proof.
  unfold _track_single_book, _track_single_book_body.
  destruct w; simpl. run_pass.
  destruct (cancelled_at env AwaitGet); simpl; [done|].
  destruct (queues0 !! wk_message_queue l) as [[|m rest]|]; simpl; [done| |by destruct (cancelled_at env AwaitSleep)].
  destruct (type m); simpl.
  - destruct (deques0 !! wk_past_diffs_window l) as [window|]; simpl; [|by destruct (cancelled_at env AwaitSleep)].
    destruct (books0 !! wk_order_book l) as [book|]; simpl; [|by destruct (cancelled_at env AwaitSleep)].
    destruct (restore_from_snapshot_and_diffs book m window) as [b' [|what]]; simpl;
      [done|by destruct (cancelled_at env AwaitSleep)].
  - destruct (books0 !! wk_order_book l) as [book|]; simpl; [|by destruct (cancelled_at env AwaitSleep)].
    destruct (apply_diffs book (bids m) (asks m) (update_id m)) as [b' [|what]]; simpl;
      [|by destruct (cancelled_at env AwaitSleep)].
    destruct (deques0 !! wk_past_diffs_window l) as [window|]; simpl; [|by destruct (cancelled_at env AwaitSleep)].
    rewrite lookup_insert_eq; simpl.
    by destruct (_ >? _)%Z.
  - done.
Qed.

Lemma worker_prologue_tasks (tp : string) (env : Env) (w : World) :
  tasks (world_of (_track_single_book_prologue tp env ((), w))) = tasks w.
Proof.
  unfold _track_single_book_prologue.
  destruct w; simpl. run_pass.
  destruct (_tracking_message_queues0 !! tp) as [q|]; simpl; [|done].
  by destruct (_order_books0 !! tp).
Qed.

Lemma trade_emitter_tasks (env : Env) (c : Counters) (w : World) :
  tasks (world_of (_emit_trade_event_loop env (c, w))) = tasks w.
Proof.
  unfold _emit_trade_event_loop, _emit_trade_event_loop_body, trade_event_of, float_.
  destruct w; simpl. run_pass.
  destruct (cancelled_at env AwaitGet); simpl; [done|].
  destruct _order_book_trade_stream0 as [|m rest]; simpl; [done|].
  destruct (_order_books0 !! trading_pair m) as [b|]; simpl; [|done].
  destruct (content m !! "price") as [price|]; simpl; [|by destruct (cancelled_at env AwaitSleep)].
  destruct (to_float price) as [fp|]; simpl; [|by destruct (cancelled_at env AwaitSleep)].
  destruct (content m !! "amount") as [amount|]; simpl; [|by destruct (cancelled_at env AwaitSleep)].
  destruct (to_float amount) as [fa|]; simpl; [|by destruct (cancelled_at env AwaitSleep)].
  destruct (content m !! "trade_type") as [flag|]; simpl; [|by destruct (cancelled_at env AwaitSleep)].
  destruct (books0 !! b) as [book|]; simpl; [|by destruct (cancelled_at env AwaitSleep)].
  destruct (apply_trade book _) as [b' [|what]]; simpl; [|by destruct (cancelled_at env AwaitSleep)].
  by destruct (_ >? _)%Z.
Qed.

Lemma grows_from_emit (x : effect) (w w' : World) :
  grows_from w w' → grows_from w (emit x w').
Proof. by destruct w'. Qed.

Lemma refresh_loop_grows (env : Env) (w : World) :
  grows_from w (world_of (_refresh_tracking_loop env ((), w))).
Proof.
  pose proof (refresh_grows env w) as Hg.
  unfold _refresh_tracking_loop, try_except, bind.
  destruct (_refresh_tracking_tasks env ((), w)) as [[] [[] w1]|[|what] [[] w1]|[[] w1]];
    simpl in *; [| done | | done].
  - unfold sleep, log, bind, modify, ask, ret, raise; simpl.
    destruct (cancelled_at env AwaitSleep); simpl; by apply grows_from_emit.
  - unfold sleep, log, bind, modify, ask, ret, raise; simpl.
    destruct (cancelled_at env AwaitSleep); simpl; by do 2 apply grows_from_emit.
Qed.

(** What a task leaves of another task when it settles at its next
    [await] or ends. *)
Lemma settle_other {L} (t t' : ref) (frame : L → coroutine)
    (r : result (L * World) unit) (x : Task) :
  t ≠ t' →
  tasks (world_of r) !! t = Some x →
  tasks (settle t' frame r) !! t = Some x.
Proof.
  intros Hne Hx. destruct r as [[] [l w]|[|what] [l w]|[l w]]; simpl in *;
    unfold suspend, finish;
    rewrite tasks_upd_tasks, lookup_alter_ne, ?tasks_emit by done; done.
Qed.

(** A task whose cancellation was requested stays so while other tasks
    run. *)
Lemma resume_other (env : Env) (t t' : ref) (w : World) (x : Task) :
  t ≠ t' →
  tasks w !! t = Some x →
  state x = Cancelling →
  tasks (resume env t' w) !! t = Some x.
Proof.
  intros Hne Hx Hst. unfold resume.
  destruct (tasks w !! t') as [task'|]; [|done].
  assert (∀ w1, tasks w1 !! t = Some x → tasks (finish t' w1) !! t = Some x) as Hfin.
  { intros w1 H1. unfold finish. by rewrite tasks_upd_tasks, lookup_alter_ne. }
  assert (∀ env', tasks (run_coroutine env' t' (coro task') w) !! t = Some x) as Hrun.
  { intros env'. unfold run_coroutine.
    destruct (coro task') as [tp [l|]|frame| |frame| |].
    - apply settle_other; [done|]. by rewrite worker_tasks.
    - pose proof (worker_prologue_tasks tp env' w) as Hp.
      destruct (_track_single_book_prologue tp env' ((), w))
        as [l [[] w1]|[|what] [[] w1]|[[] w1]]; simpl in Hp.
      + apply settle_other; [done|]. by rewrite worker_tasks, Hp.
      + apply Hfin. by rewrite Hp.
      + apply Hfin. by rewrite tasks_emit, Hp.
      + apply Hfin. by rewrite Hp.
    - apply settle_other; [done|]. by rewrite diff_router_tasks.
    - apply settle_other; [done|]. by rewrite snapshot_router_tasks.
    - apply settle_other; [done|]. by rewrite trade_emitter_tasks.
    - apply settle_other; [done|].
      destruct (refresh_loop_grows env' w) as (_ & _ & _ & Hts).
      destruct (Hts t x Hx) as [Hk|Hk]; [done|]. rewrite Hk.
      destruct x as [c []]; simpl in *; done.
    - done. }
  destruct (state task'); [apply Hrun| |done].
  destruct (started (coro task')); [apply Hrun|by apply Hfin].
Qed.

Lemma resume_each_other (schedule : list (Env * ref)) :
  ∀ (w : World) (t : ref) (x : Task),
  (∀ y, y ∈ schedule → y.2 ≠ t) →
  tasks w !! t = Some x →
  state x = Cancelling →
  tasks (resume_each schedule w) !! t = Some x.
Proof.
  induction schedule as [|[env' t'] schedule IH]; intros w t x Hothers Hx Hst; [done|].
  change (resume_each ((env', t') :: schedule) w)
    with (resume_each schedule (resume env' t' w)).
  apply IH; [intros y Hy; apply Hothers; by right| |done].
  apply resume_other; [|done|done].
  intros ->. by apply (Hothers (env', t')); [left|].
Qed.

(** X21. [stop] does end the tasks it reaches: a task held in one of
    the six attributes, not yet done and running one of the coroutines
    of this class, is done after its next resumption, whichever other
    tasks the event loop resumes between the call of [stop] and that
    moment.  The resumption that ends it changes no book, queue, buffer
    or dictionary and logs nothing. *)
Theorem stop_ends_the_named_tasks (env : Env) (schedule : list (Env * ref))
    (w : World) (t : ref) (task : Task) :
  t ∈ handles_of_stop w →
  tasks w !! t = Some task →
  state task ≠ Finished →
  coro task ≠ Foreign →
  (∀ y, y ∈ schedule → y.2 ≠ t) →
  let w1 := resume_each schedule (stop w) in
  let w' := resume env t w1 in
  tasks w' !! t = Some {| coro := coro task; state := Finished |}
  ∧ books w' = books w1
  ∧ queues w' = queues w1
  ∧ deques w' = deques w1
  ∧ effects w' = effects w1
  ∧ dictionaries_of w' = dictionaries_of w1.
Proof.
  intros Hin Ht Hst Hco Hothers w1 w'. subst w' w1.
  assert (tasks (stop w) !! t = Some {| coro := coro task; state := Cancelling |}) as Hc.
  { rewrite stop_tasks, lookup_cancel_all, decide_True, Ht by done.
    destruct task as [c []]; simpl in *; done. }
  apply (resume_each_other schedule) in Hc; [|done|done].
  rewrite (resume_cancelling env t _ _ Hc eq_refl Hco).
  unfold finish, dictionaries_of. destruct (resume_each schedule (stop w)); simpl in *.
  by rewrite lookup_alter_eq, Hc.
Qed.

(** ** The worker applies the diffs of its queue in order *)

Lemma worker_diff_pass_book (env : Env) (l : WorkerLocals) (w : World)
    (m : OrderBookMessage) (rest : list OrderBookMessage) (book : OrderBook) :
  (∀ p, cancelled_at env p = false) →
  queues w !! wk_message_queue l = Some (m :: rest) →
  type m = DIFF →
  books w !! wk_order_book l = Some book →
  is_Some (deques w !! wk_past_diffs_window l) →
  (apply_diffs book (bids m) (asks m) (update_id m)).2 = Returns →
  ∃ l' w',
    _track_single_book env (l, w) = Val () (l', w')
    ∧ wk_message_queue l' = wk_message_queue l
    ∧ wk_past_diffs_window l' = wk_past_diffs_window l
    ∧ wk_order_book l' = wk_order_book l
    ∧ queues w' !! wk_message_queue l = Some rest
    ∧ is_Some (deques w' !! wk_past_diffs_window l)
    ∧ books w' !! wk_order_book l
      = Some (apply_diffs book (bids m) (asks m) (update_id m)).1.
Proof.
  intros Hc Hq Hty Hbook [window Hwin] Hret.
  unfold _track_single_book, _track_single_book_body.
  destruct w; simpl in *. run_pass. rewrite (Hc AwaitGet); simpl.
  rewrite Hq; simpl. rewrite Hty; simpl. rewrite Hbook; simpl.
  destruct (apply_diffs book (bids m) (asks m) (update_id m)) as [b' c']; simpl in *.
  subst c'; simpl. rewrite Hwin; simpl. rewrite lookup_insert_eq; simpl.
  destruct (_ >? _)%Z; simpl; eexists _, _; (split; [done|]); simpl;
    rewrite !lookup_insert_eq; eauto 10.
Qed.

(** X22. The worker applies the diffs of its queue to its book one
    after the other, in the order of the queue: after it has handled
    the diffs [msgs], none of which raised, the book is the result of
    calling [apply_diffs] for each of them, first to last, and the
    queue holds what came after them. *)
Theorem worker_applies_diffs_in_order (msgs : list OrderBookMessage) :
  ∀ (envs : list Env) (l : WorkerLocals) (w : World)
    (rest : list OrderBookMessage) (book : OrderBook),
  length envs = length msgs →
  (∀ env p, env ∈ envs → cancelled_at env p = false) →
  (∀ m, m ∈ msgs → type m = DIFF) →
  (∀ b m, m ∈ msgs → (apply_diffs b (bids m) (asks m) (update_id m)).2 = Returns) →
  queues w !! wk_message_queue l = Some (msgs ++ rest) →
  books w !! wk_order_book l = Some book →
  is_Some (deques w !! wk_past_diffs_window l) →
  let s := passes _track_single_book envs (l, w) in
  books s.2 !! wk_order_book l = Some (apply_all book msgs)
  ∧ queues s.2 !! wk_message_queue l = Some rest.
Proof.
  induction msgs as [|m msgs IH];
    intros envs l w rest book Hlen Hc Hty Hret Hq Hbook Hwin.
  - destruct envs; [|done]. simpl. done.
  - destruct envs as [|env envs]; [done|]. simpl in Hlen.
    destruct (worker_diff_pass_book env l w m (msgs ++ rest) book)
      as (l' & w' & Hpass & Hq' & Hd' & Hb' & Hqs & Hds & Hbs); auto.
    { intros p. apply Hc. by left. }
    { apply Hty. by left. }
    { apply Hret. by left. }
    simpl. rewrite Hpass.
    specialize (IH envs l' w' rest (apply_diffs book (bids m) (asks m) (update_id m)).1).
    rewrite Hq', Hd', Hb' in IH. apply IH; auto.
    + intros env' p Hin. apply Hc. by right.
    + intros m' Hin. apply Hty. by right.
    + intros b m' Hin. apply Hret. by right.
Qed.

(** ** Checking the hypotheses on a given tracker *)

Lemma registered_have_books_check (w : World) :
  map_Forall (λ k q, is_Some (queues w !! q)
                     ∧ is_Some (_order_books w !! k ≫= (λ b, books w !! b)))
    (_tracking_message_queues w) →
  registered_have_books w.
Proof.
  intros Hall k q Hk. destruct (Hall k q Hk) as [Hq [x Hx]]. split; [done|].
  destruct (_order_books w !! k) as [b|]; simpl in *; [eauto|done].
Qed.

Lemma consistent_check (w : World) :
  dom (_order_books w) = dom (_tracking_tasks w) →
  dom (_tracking_message_queues w) = dom (_tracking_tasks w) →
  map_Forall (λ _ r, is_Some (tasks w !! r)) (_tracking_tasks w) →
  map_Forall (λ _ r, is_Some (books w !! r)) (_order_books w) →
  map_Forall (λ _ r, is_Some (queues w !! r)) (_tracking_message_queues w) →
  consistent w.
Proof. intros H1 H2 H3 H4 H5. repeat split; done. Qed.

End coverage.

(** * The further properties on the sample tracker *)

Section coverage_samples.
Import Sample.
Local Existing Instance collaborators.
Local Existing Instance methods.
Local Open Scope Z_scope.

Ltac evaluate := apply (bool_decide_unpack _); vm_compute; exact I.

Lemma diff_router_rejects_unknown_pair_witness :
  _tracking_message_queues tracking_eth !! "XRPUSDT" = None
  ∧ _order_book_diff_router quiet
      (counters_init quiet, set_diff_stream [message DIFF "XRPUSDT" 9] tracking_eth)
    = Val () ({| last_message_timestamp := 10;
                 messages_accepted := 0;
                 messages_rejected := 1 |}, tracking_eth).
Proof.
  split; [reflexivity|].
  exact (proj1 (diff_router_rejects_unknown_pair quiet (counters_init quiet)
           (set_diff_stream [message DIFF "XRPUSDT" 9] tracking_eth)
           (message DIFF "XRPUSDT" 9) [] eq_refl eq_refl eq_refl)).
Defined.

Lemma diff_router_recovers_from_missing_book_witness :
  _tracking_message_queues eth_without_book !! "ETHUSDT" = Some 0%nat
  ∧ _order_books eth_without_book !! "ETHUSDT" = None
  ∧ _order_book_diff_router quiet
      (counters_init quiet, set_diff_stream [message DIFF "ETHUSDT" 9] eth_without_book)
    = Val () (counters_init quiet,
              emit (Sleep 5)
                (emit (LogError "Unknown error. Retrying after 5 seconds.")
                   eth_without_book)).
Proof.
  do 2 (split; [reflexivity|]).
  exact (proj1 (diff_router_recovers_from_missing_book quiet (counters_init quiet)
           (set_diff_stream [message DIFF "ETHUSDT" 9] eth_without_book)
           (message DIFF "ETHUSDT" 9) [] 0%nat eq_refl eq_refl eq_refl eq_refl)).
Defined.

Lemma diff_router_keeps_arrival_order_witness :
  registered_have_books tracking_b_c_new
  ∧ _tracking_message_queues tracking_b_c_new !! "B" = Some 1%nat
  ∧ queues (passes _order_book_diff_router (replicate 5 quiet)
              (counters_init quiet, set_diff_stream mixed_diffs tracking_b_c_new)).2
      !! 1%nat
    = Some [message DIFF "B" 1; message DIFF "B" 3].
Proof.
  assert (registered_have_books (set_diff_stream mixed_diffs tracking_b_c_new)) as Hreg.
  { apply registered_have_books_check. evaluate. }
  split; [apply registered_have_books_check; evaluate|]. split; [reflexivity|].
  etrans.
  - apply (diff_router_keeps_arrival_order mixed_diffs (replicate 5 quiet)
             (counters_init quiet) (set_diff_stream mixed_diffs tracking_b_c_new)
             [] 1%nat []).
    + reflexivity.
    + intros env p [-> _]%elem_of_replicate. reflexivity.
    + reflexivity.
    + exact Hreg.
    + reflexivity.
  - vm_compute. reflexivity.
Defined.

Lemma snapshot_router_keeps_arrival_order_witness :
  _tracking_message_queues tracking_b_c_new !! "B" = Some 1%nat
  ∧ queues (passes _order_book_snapshot_router (replicate 5 quiet)
              ((), set_snapshot_stream mixed_diffs tracking_b_c_new)).2 !! 1%nat
    = Some [message DIFF "B" 1; message DIFF "B" 3; message DIFF "B" (-1)].
Proof.
  split; [reflexivity|].
  etrans.
  - apply (snapshot_router_keeps_arrival_order mixed_diffs (replicate 5 quiet)
             (set_snapshot_stream mixed_diffs tracking_b_c_new) [] 1%nat []).
    + reflexivity.
    + intros env p [-> _]%elem_of_replicate. reflexivity.
    + reflexivity.
    + apply map_Forall_lookup. evaluate.
    + reflexivity.
  - vm_compute. reflexivity.
Defined.

Lemma worker_applies_diff_witness :
  queues running_eth_in_flight !! 0%nat = Some [message DIFF "ETHUSDT" 7]
  ∧ books running_eth_in_flight !! 0%nat = Some (book_at 5)
  ∧ books (world_of (_track_single_book quiet (eth_worker, running_eth_in_flight))) !! 0%nat
    = Some {| uid := 7; applied := [7]; trades := [] |}
  ∧ deques (world_of (_track_single_book quiet (eth_worker, running_eth_in_flight))) !! 0%nat
    = Some [message DIFF "ETHUSDT" 7].
Proof.
  do 2 (split; [reflexivity|]).
  rewrite (worker_applies_diff (methods := methods) quiet eth_worker running_eth_in_flight
             (message DIFF "ETHUSDT" 7) [] [] (book_at 5)
             eq_refl eq_refl eq_refl eq_refl eq_refl eq_refl).
  split; reflexivity.
Defined.

Lemma worker_drops_diff_that_fails_witness :
  (@apply_diffs collaborators checking_methods (book_at 5) [] [] (-7)).2 = Throws "ValueError"
  ∧ @_track_single_book collaborators checking_methods quiet
      (eth_worker, upd_queues <[0%nat := [message DIFF "ETHUSDT" (-7)]]> running_eth)
    = Val () (eth_worker,
              emit (Sleep 5)
                (emit (LogError "Unknown error. Retrying after 5 seconds.") running_eth)).
Proof.
  split; [reflexivity|].
  assert (queues (upd_queues <[0%nat := [message DIFF "ETHUSDT" (-7)]]> running_eth)
            !! wk_message_queue eth_worker = Some [message DIFF "ETHUSDT" (-7)]) as Hq
    by reflexivity.
  assert (books (upd_queues <[0%nat := [message DIFF "ETHUSDT" (-7)]]> running_eth)
            !! wk_order_book eth_worker = Some (book_at 5)) as Hb
    by reflexivity.
  assert ((@apply_diffs collaborators checking_methods (book_at 5)
             (bids (message DIFF "ETHUSDT" (-7))) (asks (message DIFF "ETHUSDT" (-7)))
             (update_id (message DIFF "ETHUSDT" (-7)))).2 = Throws "ValueError") as Hthrows
    by reflexivity.
  pose proof (@worker_drops_diff_that_fails collaborators checking_methods
                quiet eth_worker
                (upd_queues <[0%nat := [message DIFF "ETHUSDT" (-7)]]> running_eth)
                (message DIFF "ETHUSDT" (-7)) [] (book_at 5) "ValueError"
                eq_refl Hq eq_refl Hb Hthrows) as Hdrop.
  cbv zeta in Hdrop. destruct Hdrop as (Hdrop & _).
  etrans; [exact Hdrop|]. vm_compute. reflexivity.
Defined.

Lemma worker_prologue_registers_empty_buffer_witness :
  _tracking_message_queues tracking_eth !! "ETHUSDT" = Some 0%nat
  ∧ _order_books tracking_eth !! "ETHUSDT" = Some 0%nat
  ∧ _track_single_book_prologue "ETHUSDT" quiet ((), tracking_eth)
    = Val eth_worker
        ((), upd_past_diffs_windows <["ETHUSDT" := 0%nat]>
               (upd_deques <[0%nat := []]> tracking_eth)).
Proof.
  do 2 (split; [reflexivity|]).
  exact (proj2 (worker_prologue_registers_empty_buffer "ETHUSDT" quiet tracking_eth
                  0%nat 0%nat eq_refl eq_refl)).
Defined.

Lemma worker_for_unregistered_pair_ends_witness :
  tasks eth_without_queue !! 0%nat
    = Some {| coro := TrackSingleBook "ETHUSDT" None; state := Pending |}
  ∧ _tracking_message_queues eth_without_queue !! "ETHUSDT" = None
  ∧ state <$> tasks (resume quiet 0%nat eth_without_queue) !! 0%nat = Some Finished
  ∧ ∃ what, effects (resume quiet 0%nat eth_without_queue)
            = effects eth_without_queue
              ++ [LogError ("Unhandled error in background task: " +:+ what)].
Proof.
  do 2 (split; [reflexivity|]).
  destruct (worker_for_unregistered_pair_ends "ETHUSDT" quiet eth_without_queue 0%nat
              eq_refl (or_introl eq_refl)) as (Ht & He & _).
  split; [by rewrite Ht|exact He].
Defined.

Lemma trade_emitter_rejects_unknown_pair_witness :
  _order_books tracking_eth !! "XRPUSDT" = None
  ∧ _emit_trade_event_loop quiet
      (counters_init quiet, set_trade_stream [trade_message "XRPUSDT" 2] tracking_eth)
    = Val () ({| last_message_timestamp := 10;
                 messages_accepted := 0;
                 messages_rejected := 1 |}, tracking_eth).
Proof.
  split; [reflexivity|].
  exact (proj1 (trade_emitter_rejects_unknown_pair quiet (counters_init quiet)
           (set_trade_stream [trade_message "XRPUSDT" 2] tracking_eth)
           (trade_message "XRPUSDT" 2) [] eq_refl eq_refl eq_refl)).
Defined.

Lemma trade_emitter_recovers_from_bad_content_witness :
  content (message TRADE "ETHUSDT" 0) !! "price" = None
  ∧ trade_content_ok (message TRADE "ETHUSDT" 0) = false
  ∧ _emit_trade_event_loop quiet
      (counters_init quiet, set_trade_stream [message TRADE "ETHUSDT" 0] tracking_eth)
    = Val () (counters_init quiet,
              emit (Sleep 5)
                (emit (LogNetwork "Unexpected error routing order book messages.")
                   tracking_eth)).
Proof.
  do 2 (split; [reflexivity|]).
  exact (proj1 (trade_emitter_recovers_from_bad_content quiet (counters_init quiet)
           (set_trade_stream [message TRADE "ETHUSDT" 0] tracking_eth)
           (message TRADE "ETHUSDT" 0) [] 0%nat eq_refl eq_refl eq_refl eq_refl)).
Defined.

Lemma trade_emitter_counts_applied_trade_witness :
  books tracking_eth !! 0%nat = Some (book_at 5)
  ∧ _emit_trade_event_loop quiet
      (counters_init quiet, set_trade_stream [trade_message "ETHUSDT" 1] tracking_eth)
    = Val () ({| last_message_timestamp := 10;
                 messages_accepted := 1;
                 messages_rejected := 0 |},
              upd_books <[0%nat := {| uid := 5; applied := []; trades := [SELL] |}]>
                tracking_eth).
Proof.
  split; [reflexivity|].
  exact (trade_emitter_counts_applied_trade (methods := methods) quiet (counters_init quiet)
           (set_trade_stream [trade_message "ETHUSDT" 1] tracking_eth)
           (trade_message "ETHUSDT" 1) [] 0%nat (book_at 5) 100 3 1 100 3
           eq_refl eq_refl eq_refl eq_refl eq_refl eq_refl eq_refl eq_refl eq_refl
           eq_refl).
Defined.

Lemma refresh_is_idle_when_nothing_changed_witness :
  tracking_trading_pairs tracking_eth = dom (directory ["ETHUSDT"] 9)
  ∧ _refresh_tracking_tasks (env_at 20 ["ETHUSDT"] 9) ((), tracking_eth)
    = Val () ((), tracking_eth)
  ∧ _refresh_tracking_loop (env_at 20 ["ETHUSDT"] 9) ((), tracking_eth)
    = Val () ((), emit (Sleep 3600) tracking_eth).
Proof.
  assert (tracking_trading_pairs tracking_eth = dom (directory ["ETHUSDT"] 9)) as Htr
    by evaluate.
  split; [exact Htr|].
  exact (refresh_is_idle_when_nothing_changed (env_at 20 ["ETHUSDT"] 9) tracking_eth
           (directory ["ETHUSDT"] 9) eq_refl eq_refl Htr).
Defined.

Lemma refresh_loop_retries_after_data_source_failure_witness :
  tracking_pairs data_source_down = (Throws "TimeoutError", ∅)
  ∧ _refresh_tracking_loop data_source_down ((), tracking_eth)
    = Val () ((), emit (Sleep 5)
                    (emit (LogError "Unknown error. Retrying after 5 seconds.")
                       tracking_eth)).
Proof.
  split; [reflexivity|].
  exact (refresh_loop_retries_after_data_source_failure data_source_down tracking_eth
           "TimeoutError" ∅ eq_refl eq_refl).
Defined.

Lemma refresh_keeps_tracked_pairs_witness :
  consistent tracking_b_c_new
  ∧ "B" ∈ tracking_trading_pairs tracking_b_c_new
  ∧ is_Some (directory ["A"; "B"] 9 !! "B")
  ∧ _order_books
      (world_of (_refresh_tracking_tasks (env_at 20 ["A"; "B"] 9) ((), tracking_b_c_new)))
      !! "B" = Some 1%nat
  ∧ books
      (world_of (_refresh_tracking_tasks (env_at 20 ["A"; "B"] 9) ((), tracking_b_c_new)))
      !! 1%nat = Some (book_at 0).
Proof.
  assert (consistent tracking_b_c_new) as Hcons.
  { apply consistent_check; evaluate. }
  assert ("B" ∈ tracking_trading_pairs tracking_b_c_new) as Htr by evaluate.
  assert (is_Some (directory ["A"; "B"] 9 !! "B")) as Hsome by (eexists; reflexivity).
  do 3 (split; [done|]).
  destruct (refresh_keeps_tracked_pairs (env_at 20 ["A"; "B"] 9) tracking_b_c_new
              (directory ["A"; "B"] 9) "B" eq_refl eq_refl Hcons Htr Hsome)
    as (_ & _ & Hob & Hb & _).
  split; [etrans; [exact Hob|reflexivity]|].
  etrans; [exact (Hb 1%nat eq_refl)|reflexivity].
Defined.

Lemma ready_after_first_refresh_witness :
  tracking_pairs (env_at 10 ["ETHUSDT"] 5) = (Returns, directory ["ETHUSDT"] 5)
  ∧ size (directory ["ETHUSDT"] 5) = 1%nat
  ∧ ready (world_of (_refresh_tracking_tasks (env_at 10 ["ETHUSDT"] 5)
                       ((), __init__ (Some ["ETHUSDT"; "BTCUSDT"])))) = false
  ∧ ready (world_of (_refresh_tracking_tasks (env_at 10 ["ETHUSDT"; "BTCUSDT"] 5)
                       ((), __init__ (Some ["ETHUSDT"; "BTCUSDT"])))) = true.
Proof.
  do 2 (split; [reflexivity|]). split.
  - apply not_true_is_false. intros Hready.
    apply (proj2 (ready_after_first_refresh (env_at 10 ["ETHUSDT"] 5)
                    (Some ["ETHUSDT"; "BTCUSDT"]) (directory ["ETHUSDT"] 5)
                    eq_refl eq_refl)) in Hready.
    vm_compute in Hready. lia.
  - apply (proj2 (ready_after_first_refresh (env_at 10 ["ETHUSDT"; "BTCUSDT"] 5)
                    (Some ["ETHUSDT"; "BTCUSDT"]) (directory ["ETHUSDT"; "BTCUSDT"] 5)
                    eq_refl eq_refl)).
    vm_compute. lia.
Defined.

Lemma start_twice_orphans_first_emitter_witness :
  _emit_trade_event_task (start tracking_eth) = Some 1%nat
  ∧ _emit_trade_event_task (start (start tracking_eth)) = Some 2%nat
  ∧ state <$> tasks (stop (start (start tracking_eth))) !! 1%nat = Some Pending
  ∧ state <$> tasks (stop (start (start tracking_eth))) !! 2%nat = Some Cancelling.
Proof.
  do 2 (split; [reflexivity|]).
  destruct (start_twice_orphans_first_emitter (start tracking_eth) 1%nat
              {| coro := EmitTradeEventLoop None; state := Pending |} eq_refl eq_refl)
    as (_ & _ & _ & H2 & H1 & _).
  { evaluate. }
  split.
  - etrans; [exact (f_equal (fmap state) H1)|reflexivity].
  - etrans; [exact (f_equal (fmap state) H2)|reflexivity].
Defined.

Lemma stop_ends_the_named_tasks_witness :
  handles_of_stop running_eth_in_flight = [1%nat]
  ∧ tasks running_eth_in_flight !! 1%nat
    = Some {| coro := EmitTradeEventLoop None; state := Pending |}
  ∧ uid <$> books (stop running_eth_in_flight) !! 0%nat = Some 5
  ∧ uid <$> books (resume_each [(quiet, 0%nat)] (stop running_eth_in_flight)) !! 0%nat
    = Some 7
  ∧ tasks (resume quiet 1%nat (resume_each [(quiet, 0%nat)] (stop running_eth_in_flight)))
      !! 1%nat
    = Some {| coro := EmitTradeEventLoop None; state := Finished |}
  ∧ books (resume quiet 1%nat (resume_each [(quiet, 0%nat)] (stop running_eth_in_flight)))
    = books (resume_each [(quiet, 0%nat)] (stop running_eth_in_flight)).
Proof.
  do 4 (split; [reflexivity|]).
  destruct (stop_ends_the_named_tasks quiet [(quiet, 0%nat)] running_eth_in_flight 1%nat
              {| coro := EmitTradeEventLoop None; state := Pending |})
    as (Ht & Hb & _); [evaluate|reflexivity|discriminate|discriminate| |].
  - intros y Hy. apply list_elem_of_singleton in Hy as ->. discriminate.
  - split; [exact Ht|exact Hb].
Defined.

Lemma worker_applies_diffs_in_order_witness :
  queues diffs_pending !! 0%nat = Some (diffs_from 1 33)
  ∧ books diffs_pending !! 0%nat = Some (book_at 5)
  ∧ books (passes _track_single_book (replicate 33 quiet) (eth_worker, diffs_pending)).2
      !! 0%nat
    = Some {| uid := 33; applied := (λ i : nat, 1 + Z.of_nat i) <$> seq 0 33; trades := [] |}.
Proof.
  do 2 (split; [reflexivity|]).
  etrans.
  - apply (worker_applies_diffs_in_order (diffs_from 1 33) (replicate 33 quiet)
             eth_worker diffs_pending [] (book_at 5)).
    + reflexivity.
    + intros env p [-> _]%elem_of_replicate. reflexivity.
    + intros m Hin. apply list_elem_of_fmap in Hin as (i & -> & _). reflexivity.
    + intros b m _. reflexivity.
    + reflexivity.
    + reflexivity.
    + eexists. reflexivity.
  - vm_compute. reflexivity.
Defined.

End coverage_samples.
